(** * The Direct3D 12 backend of the toolkit's graphics abstraction

    A shallow embedding of [XR_APILAYER_NOVENDOR_toolkit/d3d12.cpp] and the
    properties of its device, texture, shader, timer and interop functions.

    Conventions of the embedding:
    - a C++ class is a module holding a record [t] of its data members and
      one function per method, under the method's name;
    - a method that can leave by an exception, or whose behaviour the C++
      language leaves undefined, returns a [result];
    - a function that talks to the native API runs in the monad [M] over
      the [World] of native objects and of the native calls made so far;
    - [std::shared_ptr<T>] is [option T], the empty pointer being [None]:
      every object this file keeps behind a shared pointer has only
      [const] data members;
    - unsigned integers are [N], [int64_t] is [Z]. *)

From Stdlib Require Import Ascii String.
From stdpp Require Import base numbers list strings gmap.

Local Open Scope Z_scope.

(** ** C++ control flow: exceptions and undefined behaviour *)

Module Cxx.

(** The only exception class the file throws. Both [throw] statements
    throw a pointer to a heap-allocated [std::runtime_error]. *)
Inductive exn : Type :=
| runtime_error (what : string).

(** How a call ends: it returns, it leaves by an exception, or the
    language gives it no meaning (unchecked indexing past the end of a
    vector, a call through an empty or dangling pointer). *)
Inductive result (A : Type) : Type :=
| Returns (a : A)
| Throws (e : exn)
| Undefined.
Arguments Returns {A} a.
Arguments Throws {A} e.
Arguments Undefined {A}.

Definition shared_ptr (T : Type) : Type := option T.
Definition make_shared {T : Type} (x : T) : shared_ptr T := Some x.

(** [operator bool] of a smart pointer. *)
Definition to_bool {T : Type} (p : shared_ptr T) : bool :=
  match p with Some _ => true | None => false end.

(** [std::vector::operator[]]: no bounds check. *)
Definition index {T : Type} (v : list T) (i : N) : result T :=
  match v !! N.to_nat i with
  | Some x => Returns x
  | None => Undefined
  end.

(** [std::vector::resize] on a vector of smart pointers: new elements
    are value-initialised, that is empty. *)
Definition resize {T : Type} (v : list (shared_ptr T)) (n : N)
  : list (shared_ptr T) :=
  take (N.to_nat n) v ++ replicate (N.to_nat n - length v)%nat None.

(** Conversion of an integer to a signed [w]-bit type. *)
Definition to_signed (w : Z) (z : Z) : Z :=
  (z + 2 ^ (w - 1)) mod 2 ^ w - 2 ^ (w - 1).

End Cxx.
Export Cxx.

(** ** The native API: what the Windows SDK and OpenXR headers declare *)

Module Native.

(** A raw or COM pointer; [nullptr] is address 0. *)
Definition ptr : Type := Z.
Definition nullptr : ptr := 0.

(** [DXGI_FORMAT] enumerators used by the file (dxgiformat.h). *)
Definition DXGI_FORMAT_R32G32B32A32_FLOAT : Z := 2.
Definition DXGI_FORMAT_R16G16B16A16_UNORM : Z := 11.
Definition DXGI_FORMAT_R8G8B8A8_UNORM_SRGB : Z := 29.
Definition DXGI_FORMAT_B8G8R8A8_UNORM_SRGB : Z := 91.
Definition DXGI_FORMAT_B8G8R8X8_UNORM_SRGB : Z := 93.

(** The cast [(DXGI_FORMAT)format] of an [int64_t]: the enumeration is
    held in a 32-bit [int], the upper half of the operand is dropped. *)
Definition cast_DXGI_FORMAT (format : Z) : Z := to_signed 32 format.

(** [D3D12_CPU_DESCRIPTOR_HANDLE]: one [SIZE_T] field. *)
Record D3D12_CPU_DESCRIPTOR_HANDLE : Type := { handle_ptr : N }.

(** [D3D12_RESOURCE_DESC] (d3d12.h). *)
Record D3D12_RESOURCE_DESC : Type := {
  Dimension : Z;
  Alignment : N;
  Width : N;
  Height : N;
  DepthOrArraySize : N;
  MipLevels : N;
  Format : Z;
  SampleCount : N;
  SampleQuality : N;
  Layout : Z;
  Flags : N
}.

(** [XrSwapchainCreateInfo] (openxr.h), without the [type]/[next] header. *)
Record XrSwapchainCreateInfo : Type := {
  createFlags : N;
  usageFlags : N;
  format : Z;
  sampleCount : N;
  width : N;
  height : N;
  faceCount : N;
  arraySize : N;
  mipCount : N
}.

(** A wide string: UTF-16 code units. *)
Definition wstring : Type := list N.

(** Conversion of a [char] to [wchar_t]: [char] is signed, so the codes
    from 128 on are sign-extended to 16 bits. *)
Definition widen (c : ascii) : N :=
  let n := N_of_ascii c in
  if (n <? 128)%N then n else (n + 65280)%N.

(** [std::wstring(first, last)] over the characters of a narrow string. *)
Definition wstring_of_range (s : string) : wstring :=
  widen <$> list_ascii_of_string s.

(** What the callee reads through [c_str()]: the units before the first
    terminator. *)
Fixpoint c_str (w : wstring) : wstring :=
  match w with
  | [] => []
  | c :: w' => if (c =? 0)%N then [] else c :: c_str w'
  end.

(** The state of an [ID3D12Resource]: its description and the name given
    to it for debugging tools. The references held on it are not part of
    this state: they are the balance of the [AddRef] and [Release] calls
    of the log. *)
Record ID3D12Resource : Type := {
  res_desc : D3D12_RESOURCE_DESC;
  res_name : option wstring
}.

(** Calls into the native API. [AddRef] and [Release] are the calls a
    [ComPtr] makes when it takes and drops a pointer. [CmdDispatch] is
    the call a compute dispatch is recorded with
    ([ID3D12GraphicsCommandList::Dispatch]); it is listed so that
    properties of [dispatchShader] can speak of it. *)
Inductive NativeCall : Type :=
| SetName (obj : ptr) (name : wstring)
| GetDesc (obj : ptr)
| CmdDispatch (x y z : N)
| AddRef (obj : ptr)
| Release (obj : ptr).

(** The native objects alive and the native calls made, oldest first. *)
Record World : Type := {
  resources : gmap Z ID3D12Resource;
  calls : list NativeCall
}.

End Native.
Export Native.

(** ** The monad of functions that use the native API *)

Definition M (A : Type) : Type := World → result (A * World).

Global Instance M_ret : MRet M := λ A a w, Returns (a, w).

Global Instance M_bind : MBind M := λ A B f m w,
  match m w with
  | Returns (a, w') => f a w'
  | Throws e => Throws e
  | Undefined => Undefined
  end.

(** [throw new std::runtime_error(what)] *)
Definition throw {A : Type} (what : string) : M A :=
  λ _, Throws (runtime_error what).

(** A call through a pointer to no live object. *)
Definition undefined {A : Type} : M A := λ _, Undefined.

Definition lift {A : Type} (r : result A) : M A := λ w,
  match r with
  | Returns a => Returns (a, w)
  | Throws e => Throws e
  | Undefined => Undefined
  end.

(** [obj->SetName(name)], [name] being read up to its terminator. *)
Definition ID3D12Object_SetName (obj : ptr) (name : wstring) : M unit := λ w,
  match resources w !! obj with
  | Some r =>
      Returns (tt, {| resources :=
                        <[obj := {| res_desc := res_desc r;
                                    res_name := Some (c_str name) |}]>
                          (resources w);
                      calls := calls w ++ [SetName obj (c_str name)] |})
  | None => Undefined
  end.

(** [obj->GetDesc()] *)
Definition ID3D12Resource_GetDesc (obj : ptr) : M D3D12_RESOURCE_DESC := λ w,
  match resources w !! obj with
  | Some r =>
      Returns (res_desc r,
               {| resources := resources w;
                  calls := calls w ++ [GetDesc obj] |})
  | None => Undefined
  end.

(** [obj->AddRef()] and [obj->Release()]. No [Release] of this file drops
    the last reference: each follows an [AddRef] by the same [ComPtr]. *)
Definition IUnknown_AddRef (obj : ptr) : M unit := λ w,
  match resources w !! obj with
  | Some _ =>
      Returns (tt, {| resources := resources w;
                      calls := calls w ++ [AddRef obj] |})
  | None => Undefined
  end.

Definition IUnknown_Release (obj : ptr) : M unit := λ w,
  match resources w !! obj with
  | Some _ =>
      Returns (tt, {| resources := resources w;
                      calls := calls w ++ [Release obj] |})
  | None => Undefined
  end.

(** [ComPtr::InternalAddRef] and [ComPtr::InternalRelease]: what the
    constructors and the destructor of a [ComPtr] do with the pointer
    they hold; a null pointer is left alone. *)
Definition ComPtr_InternalAddRef (p : ptr) : M unit :=
  if decide (p = nullptr) then mret tt else IUnknown_AddRef p.

Definition ComPtr_InternalRelease (p : ptr) : M unit :=
  if decide (p = nullptr) then mret tt else IUnknown_Release p.

(** ** interfaces.h *)

Module Interfaces.

(** Modelled from the spec: [enum class Api] of interfaces.h, which is
    not among the sources. The spec has one value per supported backend
    and names Direct3D 11 and Direct3D 12. *)
Inductive Api : Type := D3D11 | D3D12.

Global Instance Api_eq_dec : EqDecision Api.
Proof. solve_decision. Defined.

(** Modelled from the spec: [enum class TextureFormat] of interfaces.h,
    which is not among the sources. The two enumerators are those
    [getTextureFormat] names; [OtherFormat v] stands for any other
    value of the enumeration, [v] telling these apart (it is not the
    value's integer). *)
Inductive TextureFormat : Type :=
| R32G32B32A32_FLOAT
| R16G16B16A16_UNORM
| OtherFormat (v : Z).

End Interfaces.
Export Interfaces.

(** [struct IDevice], as seen through a pointer to the interface: the
    object's answers to the [const] virtual methods. *)
Module IDevice.

Record t : Type := {
  getApi : Api;
  getDeviceName : string;
  getTextureFormat : TextureFormat → result Z;
  isTextureFormatSRGB : Z → bool;
  getNativePtr : ptr;
  getContextPtr : ptr
}.

End IDevice.

(** [p->getApi()] through a shared pointer. *)
Definition deref_getApi (p : shared_ptr IDevice.t) : result Api :=
  match p with
  | Some d => Returns (IDevice.getApi d)
  | None => Undefined
  end.

(** ** class D3D12QuadShader *)

Module D3D12QuadShader.

Record t : Type := {
  m_device : shared_ptr IDevice.t;
  m_pixelShader : ptr
}.

Definition getApi (this : t) : Api := D3D12.
Definition getDevice (this : t) : shared_ptr IDevice.t := m_device this.
Definition getNativePtr (this : t) : ptr := m_pixelShader this.

End D3D12QuadShader.

(** ** class D3D12ComputeShader *)

Module D3D12ComputeShader.

Record t : Type := {
  m_device : shared_ptr IDevice.t;
  m_computeShader : ptr;
  m_threadGroups : N * N * N
}.

Definition getApi (this : t) : Api := D3D12.
Definition getDevice (this : t) : shared_ptr IDevice.t := m_device this.

Definition updateThreadGroups (this : t) (threadGroups : N * N * N) : t :=
  {| m_device := m_device this;
     m_computeShader := m_computeShader this;
     m_threadGroups := threadGroups |}.

Definition getThreadGroups (this : t) : N * N * N := m_threadGroups this.

Definition getNativePtr (this : t) : ptr := m_computeShader this.

End D3D12ComputeShader.

(** ** The three view classes *)

Module D3D12ShaderResourceView.

Record t : Type := {
  m_device : shared_ptr IDevice.t;
  m_shaderResourceView : D3D12_CPU_DESCRIPTOR_HANDLE
}.

Definition getApi (this : t) : Api := D3D12.
Definition getDevice (this : t) : shared_ptr IDevice.t := m_device this.
Definition getNativePtr (this : t) : ptr := nullptr.

End D3D12ShaderResourceView.

Module D3D12UnorderedAccessView.

Record t : Type := {
  m_device : shared_ptr IDevice.t;
  m_unorderedAccessView : D3D12_CPU_DESCRIPTOR_HANDLE
}.

Definition getApi (this : t) : Api := D3D12.
Definition getDevice (this : t) : shared_ptr IDevice.t := m_device this.
Definition getNativePtr (this : t) : ptr := nullptr.

End D3D12UnorderedAccessView.

Module D3D12RenderTargetView.

Record t : Type := {
  m_device : shared_ptr IDevice.t;
  m_renderTargetView : D3D12_CPU_DESCRIPTOR_HANDLE
}.

Definition getApi (this : t) : Api := D3D12.
Definition getDevice (this : t) : shared_ptr IDevice.t := m_device this.
Definition getNativePtr (this : t) : ptr := nullptr.

End D3D12RenderTargetView.

(** ** Exceptions and undefined behaviour propagate through sequencing *)

Global Instance result_ret : MRet result := λ A a, Returns a.

Global Instance result_bind : MBind result := λ A B f r,
  match r with
  | Returns a => f a
  | Throws e => Throws e
  | Undefined => Undefined
  end.

(** ** class D3D12Texture *)

Module D3D12Texture.

Abbreviation SRV := D3D12ShaderResourceView.t.
Abbreviation UAV := D3D12UnorderedAccessView.t.
Abbreviation RTV := D3D12RenderTargetView.t.

Record t : Type := {
  m_device : shared_ptr IDevice.t;
  m_info : XrSwapchainCreateInfo;
  m_textureDesc : D3D12_RESOURCE_DESC;
  m_texture : ptr;
  (* mutable *)
  m_shaderResourceView : shared_ptr SRV;
  m_shaderResourceSubView : list (shared_ptr SRV);
  m_unorderedAccessView : shared_ptr UAV;
  m_unorderedAccessSubView : list (shared_ptr UAV);
  m_renderTargetView : shared_ptr RTV;
  m_renderTargetSubView : list (shared_ptr RTV)
}.

(** The constructor. *)
Definition new (device : shared_ptr IDevice.t) (info : XrSwapchainCreateInfo)
    (textureDesc : D3D12_RESOURCE_DESC) (texture : ptr) : t :=
  {| m_device := device;
     m_info := info;
     m_textureDesc := textureDesc;
     m_texture := texture;
     m_shaderResourceView := None;
     m_shaderResourceSubView := resize [] (arraySize info);
     m_unorderedAccessView := None;
     m_unorderedAccessSubView := resize [] (arraySize info);
     m_renderTargetView := None;
     m_renderTargetSubView := resize [] (arraySize info) |}.

(** Assignments to the mutable members. *)
Definition set_shaderResourceView (this : t) (v : shared_ptr SRV) : t :=
  {| m_device := m_device this; m_info := m_info this;
     m_textureDesc := m_textureDesc this; m_texture := m_texture this;
     m_shaderResourceView := v;
     m_shaderResourceSubView := m_shaderResourceSubView this;
     m_unorderedAccessView := m_unorderedAccessView this;
     m_unorderedAccessSubView := m_unorderedAccessSubView this;
     m_renderTargetView := m_renderTargetView this;
     m_renderTargetSubView := m_renderTargetSubView this |}.

Definition set_shaderResourceSubView (this : t) (v : list (shared_ptr SRV)) : t :=
  {| m_device := m_device this; m_info := m_info this;
     m_textureDesc := m_textureDesc this; m_texture := m_texture this;
     m_shaderResourceView := m_shaderResourceView this;
     m_shaderResourceSubView := v;
     m_unorderedAccessView := m_unorderedAccessView this;
     m_unorderedAccessSubView := m_unorderedAccessSubView this;
     m_renderTargetView := m_renderTargetView this;
     m_renderTargetSubView := m_renderTargetSubView this |}.

Definition set_unorderedAccessView (this : t) (v : shared_ptr UAV) : t :=
  {| m_device := m_device this; m_info := m_info this;
     m_textureDesc := m_textureDesc this; m_texture := m_texture this;
     m_shaderResourceView := m_shaderResourceView this;
     m_shaderResourceSubView := m_shaderResourceSubView this;
     m_unorderedAccessView := v;
     m_unorderedAccessSubView := m_unorderedAccessSubView this;
     m_renderTargetView := m_renderTargetView this;
     m_renderTargetSubView := m_renderTargetSubView this |}.

Definition set_unorderedAccessSubView (this : t) (v : list (shared_ptr UAV)) : t :=
  {| m_device := m_device this; m_info := m_info this;
     m_textureDesc := m_textureDesc this; m_texture := m_texture this;
     m_shaderResourceView := m_shaderResourceView this;
     m_shaderResourceSubView := m_shaderResourceSubView this;
     m_unorderedAccessView := m_unorderedAccessView this;
     m_unorderedAccessSubView := v;
     m_renderTargetView := m_renderTargetView this;
     m_renderTargetSubView := m_renderTargetSubView this |}.

Definition set_renderTargetView (this : t) (v : shared_ptr RTV) : t :=
  {| m_device := m_device this; m_info := m_info this;
     m_textureDesc := m_textureDesc this; m_texture := m_texture this;
     m_shaderResourceView := m_shaderResourceView this;
     m_shaderResourceSubView := m_shaderResourceSubView this;
     m_unorderedAccessView := m_unorderedAccessView this;
     m_unorderedAccessSubView := m_unorderedAccessSubView this;
     m_renderTargetView := v;
     m_renderTargetSubView := m_renderTargetSubView this |}.

Definition set_renderTargetSubView (this : t) (v : list (shared_ptr RTV)) : t :=
  {| m_device := m_device this; m_info := m_info this;
     m_textureDesc := m_textureDesc this; m_texture := m_texture this;
     m_shaderResourceView := m_shaderResourceView this;
     m_shaderResourceSubView := m_shaderResourceSubView this;
     m_unorderedAccessView := m_unorderedAccessView this;
     m_unorderedAccessSubView := m_unorderedAccessSubView this;
     m_renderTargetView := m_renderTargetView this;
     m_renderTargetSubView := v |}.

Definition getApi (this : t) : Api := D3D12.
Definition getDevice (this : t) : shared_ptr IDevice.t := m_device this.
Definition getInfo (this : t) : XrSwapchainCreateInfo := m_info this.

Definition isArray (this : t) : bool := false.

Definition getNativePtr (this : t) : ptr := m_texture this.

(** The three private helpers take the cache slot by reference. Each
    returns the slot as the call leaves it, and the pointer handed back
    to the caller. The block guarded by the test is empty. *)
Definition getShaderInputViewInternal (shaderResourceView : shared_ptr SRV)
    (slice : N) : shared_ptr SRV * shared_ptr SRV :=
  let shaderResourceView :=
    if negb (to_bool shaderResourceView) then shaderResourceView
    else shaderResourceView in
  (shaderResourceView, shaderResourceView).

Definition getComputeShaderOutputViewInternal
    (unorderedAccessView : shared_ptr UAV) (slice : N)
  : shared_ptr UAV * shared_ptr UAV :=
  let unorderedAccessView :=
    if negb (to_bool unorderedAccessView) then unorderedAccessView
    else unorderedAccessView in
  (unorderedAccessView, unorderedAccessView).

Definition getRenderTargetViewInternal (renderTargetView : shared_ptr RTV)
    (slice : N) : shared_ptr RTV * shared_ptr RTV :=
  let renderTargetView :=
    if negb (to_bool renderTargetView) then renderTargetView
    else renderTargetView in
  (renderTargetView, renderTargetView).

(** The public getters: the view handed back and the texture as the
    call leaves it. The overloads with a slice carry the suffix
    [_slice]. *)
Definition getShaderInputView (this : t) : result (shared_ptr SRV * t) :=
  let '(slot, v) := getShaderInputViewInternal (m_shaderResourceView this) 0 in
  Returns (v, set_shaderResourceView this slot).

Definition getShaderInputView_slice (this : t) (slice : N)
  : result (shared_ptr SRV * t) :=
  slot0 ← index (m_shaderResourceSubView this) slice;
  let '(slot, v) := getShaderInputViewInternal slot0 slice in
  Returns (v, set_shaderResourceSubView this
                (<[N.to_nat slice := slot]> (m_shaderResourceSubView this))).

Definition getComputeShaderOutputView (this : t) : result (shared_ptr UAV * t) :=
  let '(slot, v) :=
    getComputeShaderOutputViewInternal (m_unorderedAccessView this) 0 in
  Returns (v, set_unorderedAccessView this slot).

Definition getComputeShaderOutputView_slice (this : t) (slice : N)
  : result (shared_ptr UAV * t) :=
  slot0 ← index (m_unorderedAccessSubView this) slice;
  let '(slot, v) := getComputeShaderOutputViewInternal slot0 slice in
  Returns (v, set_unorderedAccessSubView this
                (<[N.to_nat slice := slot]> (m_unorderedAccessSubView this))).

Definition getRenderTargetView (this : t) : result (shared_ptr RTV * t) :=
  let '(slot, v) := getRenderTargetViewInternal (m_renderTargetView this) 0 in
  Returns (v, set_renderTargetView this slot).

Definition getRenderTargetView_slice (this : t) (slice : N)
  : result (shared_ptr RTV * t) :=
  slot0 ← index (m_renderTargetSubView this) slice;
  let '(slot, v) := getRenderTargetViewInternal slot0 slice in
  Returns (v, set_renderTargetSubView this
                (<[N.to_nat slice := slot]> (m_renderTargetSubView this))).

End D3D12Texture.

(** ** class D3D12GpuTimer *)

Module D3D12GpuTimer.

Record t : Type := { m_device : shared_ptr IDevice.t }.

Definition getApi (this : t) : Api := D3D12.
Definition getDevice (this : t) : shared_ptr IDevice.t := m_device this.

Definition start (this : t) : t := this.
Definition stop (this : t) : t := this.
Definition query (this : t) (reset : bool) : N := 0%N.

End D3D12GpuTimer.

(** ** class D3D12Device *)

Module D3D12Device.

Record t : Type := {
  m_device : ptr;
  m_queue : ptr;
  m_context : ptr;
  m_deviceName : string
}.

Definition getApi (this : t) : Api := D3D12.

Definition getDeviceName (this : t) : string := m_deviceName this.

Definition getTextureFormat (this : t) (format : TextureFormat) : result Z :=
  match format with
  | R32G32B32A32_FLOAT => Returns DXGI_FORMAT_R32G32B32A32_FLOAT
  | R16G16B16A16_UNORM => Returns DXGI_FORMAT_R16G16B16A16_UNORM
  | _ => Throws (runtime_error "Unknown texture format")
  end.

Definition isTextureFormatSRGB (this : t) (format : Z) : bool :=
  let f := cast_DXGI_FORMAT format in
  if f =? DXGI_FORMAT_R8G8B8A8_UNORM_SRGB then true
  else if f =? DXGI_FORMAT_B8G8R8A8_UNORM_SRGB then true
  else if f =? DXGI_FORMAT_B8G8R8X8_UNORM_SRGB then true
  else false.

Definition getNativePtr (this : t) : ptr := m_device this.
Definition getContextPtr (this : t) : ptr := m_context this.

(** The object seen through the interface ([shared_from_this()]). *)
Definition shared_from_this (this : t) : shared_ptr IDevice.t :=
  make_shared
    {| IDevice.getApi := getApi this;
       IDevice.getDeviceName := getDeviceName this;
       IDevice.getTextureFormat := getTextureFormat this;
       IDevice.isTextureFormatSRGB := isTextureFormatSRGB this;
       IDevice.getNativePtr := getNativePtr this;
       IDevice.getContextPtr := getContextPtr this |}.

Definition createTexture (this : t) (info : XrSwapchainCreateInfo)
    (debugName : option string) (rowPitch imageSize : N) (initialData : ptr)
  : M (shared_ptr D3D12Texture.t * t) :=
  mret (None, this).

Definition createQuadShader (this : t) (shaderPath entryPoint : string)
    (debugName : option string) (defines : ptr) (includePath : string)
  : M (shared_ptr D3D12QuadShader.t * t) :=
  mret (None, this).

Definition createComputeShader (this : t) (shaderPath entryPoint : string)
    (debugName : option string) (threadGroups : N * N * N) (defines : ptr)
    (includePath : string)
  : M (shared_ptr D3D12ComputeShader.t * t) :=
  mret (None, this).

Definition createTimer (this : t) : M (shared_ptr D3D12GpuTimer.t * t) :=
  mret (make_shared {| D3D12GpuTimer.m_device := shared_from_this this |},
        this).

(** The two overloads of [setShader]. *)
Definition setShader_quad (this : t) (shader : shared_ptr D3D12QuadShader.t)
  : M t := mret this.

Definition setShader_compute (this : t)
    (shader : shared_ptr D3D12ComputeShader.t) : M t := mret this.

(** The two overloads of [setShaderInput]: a texture slice, a buffer. *)
Definition setShaderInput_texture (this : t) (slot : N)
    (input : shared_ptr D3D12Texture.t) (slice : Z) : M t := mret this.

Definition setShaderInput_buffer (this : t) (slot : N) (input : ptr)
  : M t := mret this.

Definition setShaderOutput (this : t) (slot : N)
    (output : shared_ptr D3D12Texture.t) (slice : Z) : M t := mret this.

Definition dispatchShader (this : t) (doNotClear : bool) : M unit := mret tt.

Definition clearRenderTargets (this : t) : M t := mret this.

(** The two overloads of [setRenderTargets]. *)
Definition setRenderTargets (this : t)
    (renderTargets : list (shared_ptr D3D12Texture.t)) : M t := mret this.

Definition setRenderTargets_slices (this : t)
    (renderTargets : list (shared_ptr D3D12Texture.t * Z)) : M t := mret this.

End D3D12Device.

(** ** namespace toolkit::graphics *)

(** [std::make_shared<D3D12Texture>(device, info, textureDesc, texture)]
    with a raw pointer for [texture]: the pointer is converted to the
    [ComPtr] parameter of the constructor, the member [m_texture] is
    copied from the parameter, and the parameter is destroyed once the
    object is built. *)
Definition make_shared_D3D12Texture (device : shared_ptr IDevice.t)
    (info : XrSwapchainCreateInfo) (textureDesc : D3D12_RESOURCE_DESC)
    (texture : ptr) : M (shared_ptr D3D12Texture.t) :=
  _ ← ComPtr_InternalAddRef texture;
  _ ← ComPtr_InternalAddRef texture;
  let this := D3D12Texture.new device info textureDesc texture in
  _ ← ComPtr_InternalRelease texture;
  mret (make_shared this).

Definition WrapD3D12Texture (device : shared_ptr IDevice.t)
    (info : XrSwapchainCreateInfo) (texture : ptr) (debugName : option string)
  : M (shared_ptr D3D12Texture.t) :=
  api ← lift (deref_getApi device);
  _ ← (if decide (api ≠ D3D12) then throw "Not a D3D12 device" else mret tt);
  _ ← match debugName with
      | Some name => ID3D12Object_SetName texture (wstring_of_range name)
      | None => mret tt
      end;
  desc ← ID3D12Resource_GetDesc texture;
  make_shared_D3D12Texture device info desc texture.

(** * Vocabulary of the properties *)

(** The errors of the design, as this backend raises them. *)
Definition UnsupportedFormatError : exn := runtime_error "Unknown texture format".
Definition DeviceMismatchError : exn := runtime_error "Not a D3D12 device".

(** A call fails when it leaves by an exception, whichever it is. *)
Definition fails {A : Type} (r : result A) : Prop := ∃ e, r = Throws e.

(** The three kinds of view and a request for one slice of any kind. *)
Inductive ViewKind : Type := ShaderInput | ComputeOutput | RenderTarget.

Inductive AnyView : Type :=
| SomeShaderInput (v : shared_ptr D3D12ShaderResourceView.t)
| SomeComputeOutput (v : shared_ptr D3D12UnorderedAccessView.t)
| SomeRenderTarget (v : shared_ptr D3D12RenderTargetView.t).

Definition is_view (v : AnyView) : bool :=
  match v with
  | SomeShaderInput p => to_bool p
  | SomeComputeOutput p => to_bool p
  | SomeRenderTarget p => to_bool p
  end.

(** The empty handle of each kind. *)
Definition no_view (k : ViewKind) : AnyView :=
  match k with
  | ShaderInput => SomeShaderInput None
  | ComputeOutput => SomeComputeOutput None
  | RenderTarget => SomeRenderTarget None
  end.

(** What the cache of a kind holds for a slice, when it has that slot. *)
Definition slot_content (k : ViewKind) (t : D3D12Texture.t) (slice : N)
  : option AnyView :=
  match k with
  | ShaderInput =>
      SomeShaderInput
        <$> D3D12Texture.m_shaderResourceSubView t !! N.to_nat slice
  | ComputeOutput =>
      SomeComputeOutput
        <$> D3D12Texture.m_unorderedAccessSubView t !! N.to_nat slice
  | RenderTarget =>
      SomeRenderTarget
        <$> D3D12Texture.m_renderTargetSubView t !! N.to_nat slice
  end.

Definition requestView (k : ViewKind) (t : D3D12Texture.t) (slice : N)
  : result (AnyView * D3D12Texture.t) :=
  match k with
  | ShaderInput =>
      '(v, t') ← D3D12Texture.getShaderInputView_slice t slice;
      mret (SomeShaderInput v, t')
  | ComputeOutput =>
      '(v, t') ← D3D12Texture.getComputeShaderOutputView_slice t slice;
      mret (SomeComputeOutput v, t')
  | RenderTarget =>
      '(v, t') ← D3D12Texture.getRenderTargetView_slice t slice;
      mret (SomeRenderTarget v, t')
  end.

(** The per-slice caches have one slot per slice of the creation
    parameters: what the constructor establishes. *)
Definition slots_sized (t : D3D12Texture.t) : Prop :=
  length (D3D12Texture.m_shaderResourceSubView t)
    = N.to_nat (arraySize (D3D12Texture.m_info t))
  ∧ length (D3D12Texture.m_unorderedAccessSubView t)
    = N.to_nat (arraySize (D3D12Texture.m_info t))
  ∧ length (D3D12Texture.m_renderTargetSubView t)
    = N.to_nat (arraySize (D3D12Texture.m_info t)).

(** How many views a texture holds in its caches. *)
Definition held {T : Type} (p : shared_ptr T) : nat :=
  if to_bool p then 1%nat else 0%nat.

Definition views_created (t : D3D12Texture.t) : nat :=
  (held (D3D12Texture.m_shaderResourceView t)
   + sum_list (held <$> D3D12Texture.m_shaderResourceSubView t)
   + held (D3D12Texture.m_unorderedAccessView t)
   + sum_list (held <$> D3D12Texture.m_unorderedAccessSubView t)
   + held (D3D12Texture.m_renderTargetView t)
   + sum_list (held <$> D3D12Texture.m_renderTargetSubView t))%nat.

(** Histories of calls on a device. *)
Inductive DeviceCall : Type :=
| CallSetShaderQuad (shader : shared_ptr D3D12QuadShader.t)
| CallSetShaderCompute (shader : shared_ptr D3D12ComputeShader.t)
| CallSetShaderInputTexture (slot : N) (input : shared_ptr D3D12Texture.t)
    (slice : Z)
| CallSetShaderInputBuffer (slot : N) (input : ptr)
| CallSetShaderOutput (slot : N) (output : shared_ptr D3D12Texture.t)
    (slice : Z)
| CallDispatchShader (doNotClear : bool)
| CallClearRenderTargets
| CallSetRenderTargets (renderTargets : list (shared_ptr D3D12Texture.t))
| CallSetRenderTargetsSlices
    (renderTargets : list (shared_ptr D3D12Texture.t * Z)).

Definition device_call (c : DeviceCall) (d : D3D12Device.t) : M D3D12Device.t :=
  match c with
  | CallSetShaderQuad s => D3D12Device.setShader_quad d s
  | CallSetShaderCompute s => D3D12Device.setShader_compute d s
  | CallSetShaderInputTexture slot i sl =>
      D3D12Device.setShaderInput_texture d slot i sl
  | CallSetShaderInputBuffer slot i => D3D12Device.setShaderInput_buffer d slot i
  | CallSetShaderOutput slot o sl => D3D12Device.setShaderOutput d slot o sl
  | CallDispatchShader b => _ ← D3D12Device.dispatchShader d b; mret d
  | CallClearRenderTargets => D3D12Device.clearRenderTargets d
  | CallSetRenderTargets l => D3D12Device.setRenderTargets d l
  | CallSetRenderTargetsSlices l => D3D12Device.setRenderTargets_slices d l
  end.

Fixpoint device_calls (cs : list DeviceCall) (d : D3D12Device.t)
  : M D3D12Device.t :=
  match cs with
  | [] => mret d
  | c :: cs' => d' ← device_call c d; device_calls cs' d'
  end.

(** A history binds a shader when it holds a call of [setShader] with a
    shader; without one the device is in the design's Unbound state. *)
Definition binds_shader (c : DeviceCall) : bool :=
  match c with
  | CallSetShaderQuad s => to_bool s
  | CallSetShaderCompute s => to_bool s
  | _ => false
  end.

Definition unbound (cs : list DeviceCall) : Prop :=
  Forall (λ c, binds_shader c = false) cs.

(** Histories of calls on a timer. *)
Inductive TimerCall : Type :=
| CallStart
| CallStop
| CallQuery (reset : bool).

Definition timer_call (c : TimerCall) (t : D3D12GpuTimer.t) : D3D12GpuTimer.t :=
  match c with
  | CallStart => D3D12GpuTimer.start t
  | CallStop => D3D12GpuTimer.stop t
  | CallQuery reset => let _ := D3D12GpuTimer.query t reset in t
  end.

Definition timer_calls (cs : list TimerCall) (t : D3D12GpuTimer.t)
  : D3D12GpuTimer.t :=
  foldl (λ t c, timer_call c t) t cs.

(** Binding a compute shader and dispatching it. *)
Definition bind_and_dispatch (d : D3D12Device.t) (cs : D3D12ComputeShader.t)
    (doNotClear : bool) : M D3D12Device.t :=
  d' ← D3D12Device.setShader_compute d (make_shared cs);
  _ ← D3D12Device.dispatchShader d' doNotClear;
  mret d'.

(** ** The objects of the examples *)

Definition example_device : D3D12Device.t :=
  {| D3D12Device.m_device := 4096;
     D3D12Device.m_queue := 8192;
     D3D12Device.m_context := nullptr;
     D3D12Device.m_deviceName := "Adapter" |}.

(** A device of the other backend, seen through the interface. *)
Definition example_d3d11_device : IDevice.t :=
  {| IDevice.getApi := D3D11;
     IDevice.getDeviceName := "Adapter";
     IDevice.getTextureFormat := λ _, Returns 0;
     IDevice.isTextureFormatSRGB := λ _, false;
     IDevice.getNativePtr := 12288;
     IDevice.getContextPtr := 16384 |}.

(** A stereo swapchain image: two slices of 2448 by 2448, 16-bit unorm. *)
Definition stereo_info : XrSwapchainCreateInfo :=
  {| createFlags := 0; usageFlags := 1;
     format := DXGI_FORMAT_R16G16B16A16_UNORM;
     sampleCount := 1; width := 2448; height := 2448;
     faceCount := 1; arraySize := 2; mipCount := 1 |}.

Definition mono_info : XrSwapchainCreateInfo :=
  {| createFlags := 0; usageFlags := 1;
     format := DXGI_FORMAT_R16G16B16A16_UNORM;
     sampleCount := 1; width := 2448; height := 2448;
     faceCount := 1; arraySize := 1; mipCount := 1 |}.

Definition stereo_desc : D3D12_RESOURCE_DESC :=
  {| Dimension := 3; Alignment := 0; Width := 2448; Height := 2448;
     DepthOrArraySize := 2; MipLevels := 1;
     Format := DXGI_FORMAT_R16G16B16A16_UNORM;
     SampleCount := 1; SampleQuality := 0; Layout := 0; Flags := 1 |}.

Definition example_world : World :=
  {| resources := {[ 20480 := {| res_desc := stereo_desc; res_name := None |} ]};
     calls := [] |}.

Definition stereo_texture : D3D12Texture.t :=
  D3D12Texture.new (D3D12Device.shared_from_this example_device)
    stereo_info stereo_desc 20480.

(** A view, and the stereo texture with that view in the render-target
    slot of slice 1: a state the type of the cache allows. *)
Definition example_view : D3D12RenderTargetView.t :=
  {| D3D12RenderTargetView.m_device :=
       D3D12Device.shared_from_this example_device;
     D3D12RenderTargetView.m_renderTargetView := {| handle_ptr := 64 |} |}.

Definition planted_texture : D3D12Texture.t :=
  D3D12Texture.set_renderTargetSubView stereo_texture [None; Some example_view].

Definition mono_desc : D3D12_RESOURCE_DESC :=
  {| Dimension := 3; Alignment := 0; Width := 2448; Height := 2448;
     DepthOrArraySize := 1; MipLevels := 1;
     Format := DXGI_FORMAT_R16G16B16A16_UNORM;
     SampleCount := 1; SampleQuality := 0; Layout := 0; Flags := 1 |}.

Definition mono_texture : D3D12Texture.t :=
  D3D12Texture.new (D3D12Device.shared_from_this example_device)
    mono_info mono_desc 28672.

Definition example_compute_shader : D3D12ComputeShader.t :=
  {| D3D12ComputeShader.m_device := D3D12Device.shared_from_this example_device;
     D3D12ComputeShader.m_computeShader := 24576;
     D3D12ComputeShader.m_threadGroups := (1, 1, 1)%N |}.

(** * The rest of the file *)

(** ** The vertex stage shared by the quad shaders *)

Module QuadVertexShader.



End QuadVertexShader.

(** ** class D3D12Buffer *)

Module D3D12Buffer.

Record t : Type := {
  m_device : shared_ptr IDevice.t;
  m_bufferDesc : D3D12_RESOURCE_DESC;
  m_buffer : ptr
}.

Definition getApi (this : t) : Api := D3D12.
Definition getDevice (this : t) : shared_ptr IDevice.t := m_device this.
Definition uploadData (this : t) (buffer : ptr) (count : N) : t := this.
Definition getNativePtr (this : t) : ptr := m_buffer this.

End D3D12Buffer.

(** [D3D12Device::createBuffer] *)
Definition D3D12Device_createBuffer (this : D3D12Device.t) (size : N)
    (debugName : option string) (initialData : ptr)
  : M (shared_ptr D3D12Buffer.t * D3D12Device.t) :=
  mret (None, this).

(** ** The constructor of D3D12Device *)

(** The conversion [(char)c] of a [wchar_t]: the low byte. *)
Definition narrow (c : N) : ascii := ascii_of_N (c mod 256).

(** [std::wstring(p)] from a character array: the units before the
    terminator; an array without one is read past its end. *)
Definition wstring_of_array (a : wstring) : result wstring :=
  if decide (0%N ∈ a) then Returns (c_str a) else Undefined.

(** What the native side answers to the three queries of the constructor:
    the status of [QueryInterface], of [GetAdapter] and of [GetDesc], and
    the [Description] array of the adapter. *)
Record AdapterAnswers : Type := {
  hr_QueryInterface : Z;
  hr_GetAdapter : Z;
  hr_GetDesc : Z;
  Description : wstring
}.

Section Constructor.

(** The macro [CHECK_HRCMD] is declared outside the file: it is applied
    to the status of a native call and returns or throws. *)
Variable CHECK_HRCMD : Z → result unit.

(** The constructor, as far as its result goes: the log line and the
    reference counting of its [ComPtr] members and locals are left out. *)
Definition D3D12Device_new (device queue : ptr) (a : AdapterAnswers)
  : result D3D12Device.t :=
  if decide (device = nullptr) then Undefined
  else
    _ ← CHECK_HRCMD (hr_QueryInterface a);
    _ ← CHECK_HRCMD (hr_GetAdapter a);
    _ ← CHECK_HRCMD (hr_GetDesc a);
    wadapterDescription ← wstring_of_array (Description a);
    mret {| D3D12Device.m_device := device;
            D3D12Device.m_queue := queue;
            D3D12Device.m_context := nullptr;
            D3D12Device.m_deviceName :=
              string_of_list_ascii (narrow <$> wadapterDescription) |}.

Definition WrapD3D12Device (device queue : ptr) (a : AdapterAnswers)
  : result (shared_ptr D3D12Device.t) :=
  d ← D3D12Device_new device queue a;
  mret (make_shared d).

End Constructor.

(** A macro for the examples, with the usual reading of a status:
    negative values are failures. *)
Definition example_CHECK_HRCMD (hr : Z) : result unit :=
  if hr <? 0 then Throws (runtime_error "HRESULT failure") else Returns tt.

(** ** Vocabulary for the rest of the file *)

(** Histories of requests to a texture. *)
Inductive TextureCall : Type :=
| CallGetShaderInputView
| CallGetShaderInputViewSlice (slice : N)
| CallGetComputeShaderOutputView
| CallGetComputeShaderOutputViewSlice (slice : N)
| CallGetRenderTargetView
| CallGetRenderTargetViewSlice (slice : N).

Definition texture_call (c : TextureCall) (t : D3D12Texture.t)
  : result (AnyView * D3D12Texture.t) :=
  match c with
  | CallGetShaderInputView =>
      '(v, t') ← D3D12Texture.getShaderInputView t;
      mret (SomeShaderInput v, t')
  | CallGetShaderInputViewSlice s => requestView ShaderInput t s
  | CallGetComputeShaderOutputView =>
      '(v, t') ← D3D12Texture.getComputeShaderOutputView t;
      mret (SomeComputeOutput v, t')
  | CallGetComputeShaderOutputViewSlice s => requestView ComputeOutput t s
  | CallGetRenderTargetView =>
      '(v, t') ← D3D12Texture.getRenderTargetView t;
      mret (SomeRenderTarget v, t')
  | CallGetRenderTargetViewSlice s => requestView RenderTarget t s
  end.

Fixpoint texture_calls (cs : list TextureCall) (t : D3D12Texture.t)
  : result (list AnyView * D3D12Texture.t) :=
  match cs with
  | [] => mret ([], t)
  | c :: cs' =>
      '(v, t1) ← texture_call c t;
      '(vs, t2) ← texture_calls cs' t1;
      mret (v :: vs, t2)
  end.

Definition call_kind (c : TextureCall) : ViewKind :=
  match c with
  | CallGetShaderInputView | CallGetShaderInputViewSlice _ => ShaderInput
  | CallGetComputeShaderOutputView
  | CallGetComputeShaderOutputViewSlice _ => ComputeOutput
  | CallGetRenderTargetView | CallGetRenderTargetViewSlice _ => RenderTarget
  end.

(** A request is in range of [n] slices when it names no slice or a slice
    below [n]. *)
Definition call_in_range (n : N) (c : TextureCall) : Prop :=
  match c with
  | CallGetShaderInputViewSlice s
  | CallGetComputeShaderOutputViewSlice s
  | CallGetRenderTargetViewSlice s => (s < n)%N
  | _ => True
  end.

(** What a successful wrap does to the resource and which native calls it
    makes. *)
Definition renamed (debugName : option string) (r : ID3D12Resource)
  : ID3D12Resource :=
  match debugName with
  | Some name => {| res_desc := res_desc r;
                    res_name := Some (c_str (wstring_of_range name)) |}
  | None => r
  end.

Definition wrap_calls (texture : ptr) (debugName : option string)
  : list NativeCall :=
  match debugName with
  | Some name => [SetName texture (c_str (wstring_of_range name))]
  | None => []
  end ++ [GetDesc texture]
      ++ (if decide (texture = nullptr) then []
          else [AddRef texture; AddRef texture; Release texture]).

(** The references a log of calls leaves on an object: one more for each
    [AddRef], one less for each [Release]. *)
Fixpoint references (obj : ptr) (cs : list NativeCall) : Z :=
  match cs with
  | [] => 0
  | AddRef o :: cs' => (if decide (o = obj) then 1 else 0) + references obj cs'
  | Release o :: cs' => (if decide (o = obj) then -1 else 0) + references obj cs'
  | _ :: cs' => references obj cs'
  end.

(** An adapter that answers every query and is described as GPU. *)
Definition example_answers : AdapterAnswers :=
  {| hr_QueryInterface := 0; hr_GetAdapter := 0; hr_GetDesc := 0;
     Description := [71; 80; 85; 0; 0; 0]%N |}.

(** * Properties *)

(** ** The view caches of a texture *)

Section ViewCache.

Import D3D12Texture.

Lemma set_shaderResourceSubView_id (t : D3D12Texture.t) :
  set_shaderResourceSubView t (m_shaderResourceSubView t) = t.
Proof. by destruct t. Qed.

Lemma set_unorderedAccessSubView_id (t : D3D12Texture.t) :
  set_unorderedAccessSubView t (m_unorderedAccessSubView t) = t.
Proof. by destruct t. Qed.

Lemma set_renderTargetSubView_id (t : D3D12Texture.t) :
  set_renderTargetSubView t (m_renderTargetSubView t) = t.
Proof. by destruct t. Qed.

(** A request inside the vector hands back the slot and leaves the
    texture as it was. *)
Lemma getShaderInputView_slice_inside (t : D3D12Texture.t) (s : N) slot :
  m_shaderResourceSubView t !! N.to_nat s = Some slot →
  getShaderInputView_slice t s = Returns (slot, t).
Proof.
  intros Hs. unfold getShaderInputView_slice, index. rewrite Hs. cbn.
  rewrite list_insert_id; last by destruct slot.
  rewrite set_shaderResourceSubView_id. by destruct slot.
Qed.

Lemma getComputeShaderOutputView_slice_inside (t : D3D12Texture.t) (s : N) slot :
  m_unorderedAccessSubView t !! N.to_nat s = Some slot →
  getComputeShaderOutputView_slice t s = Returns (slot, t).
Proof.
  intros Hs. unfold getComputeShaderOutputView_slice, index. rewrite Hs. cbn.
  rewrite list_insert_id; last by destruct slot.
  rewrite set_unorderedAccessSubView_id. by destruct slot.
Qed.

Lemma getRenderTargetView_slice_inside (t : D3D12Texture.t) (s : N) slot :
  m_renderTargetSubView t !! N.to_nat s = Some slot →
  getRenderTargetView_slice t s = Returns (slot, t).
Proof.
  intros Hs. unfold getRenderTargetView_slice, index. rewrite Hs. cbn.
  rewrite list_insert_id; last by destruct slot.
  rewrite set_renderTargetSubView_id. by destruct slot.
Qed.

(** A request past the end is an unchecked access. *)
Lemma getShaderInputView_slice_outside (t : D3D12Texture.t) (s : N) :
  m_shaderResourceSubView t !! N.to_nat s = None →
  getShaderInputView_slice t s = Undefined.
Proof. intros Hs. unfold getShaderInputView_slice, index. by rewrite Hs. Qed.

Lemma getComputeShaderOutputView_slice_outside (t : D3D12Texture.t) (s : N) :
  m_unorderedAccessSubView t !! N.to_nat s = None →
  getComputeShaderOutputView_slice t s = Undefined.
Proof.
  intros Hs. unfold getComputeShaderOutputView_slice, index. by rewrite Hs.
Qed.

Lemma getRenderTargetView_slice_outside (t : D3D12Texture.t) (s : N) :
  m_renderTargetSubView t !! N.to_nat s = None →
  getRenderTargetView_slice t s = Undefined.
Proof. intros Hs. unfold getRenderTargetView_slice, index. by rewrite Hs. Qed.

(** The same, for a request of any kind. *)
Lemma requestView_outside (k : ViewKind) (t : D3D12Texture.t) (s : N) :
  slots_sized t → (arraySize (m_info t) ≤ s)%N →
  requestView k t s = Undefined.
Proof.
  intros (Hi & Ho & Hr) Hs.
  assert (Hge : (N.to_nat (arraySize (m_info t)) ≤ N.to_nat s)%nat) by lia.
  destruct k; cbn.
  - rewrite <- Hi in Hge. apply lookup_ge_None in Hge.
    by rewrite (getShaderInputView_slice_outside _ _ Hge).
  - rewrite <- Ho in Hge. apply lookup_ge_None in Hge.
    by rewrite (getComputeShaderOutputView_slice_outside _ _ Hge).
  - rewrite <- Hr in Hge. apply lookup_ge_None in Hge.
    by rewrite (getRenderTargetView_slice_outside _ _ Hge).
Qed.

(** No request of a view leaves by an exception. *)
Lemma requestView_never_throws (k : ViewKind) (t : D3D12Texture.t) (s : N) :
  ¬ fails (requestView k t s).
Proof.
  intros [e He]. destruct k; cbn in He.
  - destruct (m_shaderResourceSubView t !! N.to_nat s) as [slot|] eqn:Hs.
    + by rewrite (getShaderInputView_slice_inside _ _ _ Hs) in He.
    + by rewrite (getShaderInputView_slice_outside _ _ Hs) in He.
  - destruct (m_unorderedAccessSubView t !! N.to_nat s) as [slot|] eqn:Hs.
    + by rewrite (getComputeShaderOutputView_slice_inside _ _ _ Hs) in He.
    + by rewrite (getComputeShaderOutputView_slice_outside _ _ Hs) in He.
  - destruct (m_renderTargetSubView t !! N.to_nat s) as [slot|] eqn:Hs.
    + by rewrite (getRenderTargetView_slice_inside _ _ _ Hs) in He.
    + by rewrite (getRenderTargetView_slice_outside _ _ Hs) in He.
Qed.

Lemma length_resize_nil {T : Type} (n : N) :
  length (resize (T := T) [] n) = N.to_nat n.
Proof.
  unfold resize. rewrite take_nil, app_nil_l, length_replicate. cbn. lia.
Qed.

(** The constructor sizes the caches and fills them with empty slots. *)
Lemma new_slots_sized device info desc texture :
  slots_sized (D3D12Texture.new device info desc texture).
Proof. repeat split; cbn; apply length_resize_nil. Qed.

Lemma resize_nil_lookup {T : Type} (n : N) (i : nat) (p : shared_ptr T) :
  resize (T := T) [] n !! i = Some p → p = None.
Proof.
  unfold resize. rewrite take_nil, app_nil_l.
  intros [-> _]%lookup_replicate. done.
Qed.

Lemma sum_held_resize_nil {T : Type} (n : N) :
  sum_list (held <$> resize (T := T) [] n) = 0%nat.
Proof.
  unfold resize. rewrite take_nil, app_nil_l.
  induction (N.to_nat n - length [])%nat as [|m IH]; cbn; [done|].
  cbn in IH. by rewrite IH.
Qed.

Lemma new_views_created device info desc texture :
  views_created (D3D12Texture.new device info desc texture) = 0%nat.
Proof.
  unfold views_created; cbn. by rewrite !sum_held_resize_nil.
Qed.

End ViewCache.

Section ViewRequests.

Import D3D12Texture.

Lemma sum_held_zero {T : Type} (l : list (shared_ptr T)) (i : nat) p :
  sum_list (held <$> l) = 0%nat → l !! i = Some p → p = None.
Proof.
  revert i. induction l as [|q l IH]; intros i Hsum Hi; [done|].
  cbn in Hsum. destruct i as [|i]; cbn in Hi.
  - injection Hi as ->. destruct p; [cbn in Hsum; lia | done].
  - apply (IH i); [lia | done].
Qed.

(** On a texture that holds no view, a request hands back the empty
    handle. *)
Lemma requestView_no_view (k : ViewKind) (t : D3D12Texture.t) (s : N) v t1 :
  views_created t = 0%nat → requestView k t s = Returns (v, t1) →
  is_view v = false.
Proof.
  unfold views_created. intros Hz Hr. destruct k; cbn in Hr.
  - destruct (m_shaderResourceSubView t !! N.to_nat s) as [slot|] eqn:Hs.
    + rewrite (getShaderInputView_slice_inside _ _ _ Hs) in Hr.
      injection Hr as <- _.
      apply sum_held_zero in Hs as ->; [done | lia].
    + by rewrite (getShaderInputView_slice_outside _ _ Hs) in Hr.
  - destruct (m_unorderedAccessSubView t !! N.to_nat s) as [slot|] eqn:Hs.
    + rewrite (getComputeShaderOutputView_slice_inside _ _ _ Hs) in Hr.
      injection Hr as <- _.
      apply sum_held_zero in Hs as ->; [done | lia].
    + by rewrite (getComputeShaderOutputView_slice_outside _ _ Hs) in Hr.
  - destruct (m_renderTargetSubView t !! N.to_nat s) as [slot|] eqn:Hs.
    + rewrite (getRenderTargetView_slice_inside _ _ _ Hs) in Hr.
      injection Hr as <- _.
      apply sum_held_zero in Hs as ->; [done | lia].
    + by rewrite (getRenderTargetView_slice_outside _ _ Hs) in Hr.
Qed.

End ViewRequests.

(** A request inside the cache hands back what the slot holds. *)
Lemma requestView_content (k : ViewKind) (t : D3D12Texture.t) (s : N) :
  slots_sized t → (s < arraySize (D3D12Texture.m_info t))%N →
  ∃ v, slot_content k t s = Some v ∧ requestView k t s = Returns (v, t).
Proof.
  intros (Hi & Ho & Hr) Hs.
  assert (Hlt : (N.to_nat s < N.to_nat (arraySize (D3D12Texture.m_info t)))%nat)
    by lia.
  destruct k; cbn.
  - rewrite <- Hi in Hlt. apply lookup_lt_is_Some in Hlt as [slot Hslot].
    rewrite (getShaderInputView_slice_inside _ _ _ Hslot), Hslot. by eexists.
  - rewrite <- Ho in Hlt. apply lookup_lt_is_Some in Hlt as [slot Hslot].
    rewrite (getComputeShaderOutputView_slice_inside _ _ _ Hslot), Hslot.
    by eexists.
  - rewrite <- Hr in Hlt. apply lookup_lt_is_Some in Hlt as [slot Hslot].
    rewrite (getRenderTargetView_slice_inside _ _ _ Hslot), Hslot. by eexists.
Qed.

(** C1, as the code has it: for every texture whose caches have one slot
    per slice of [arraySize] (every texture the constructor makes) and for
    every view kind, a request for a slice [s < arraySize] raises no error,
    hands back exactly what the slot of that kind and slice holds, and
    leaves the texture unchanged; no request ever leaves by an exception,
    and for [s >= arraySize] the request is an unchecked access past the
    end of the vector. *)
Theorem view_request_unchecked (k : ViewKind) (t : D3D12Texture.t) (s : N) :
  slots_sized t →
  ¬ fails (requestView k t s)
  ∧ ((s < arraySize (D3D12Texture.getInfo t))%N →
     ∃ v, slot_content k t s = Some v ∧ requestView k t s = Returns (v, t))
  ∧ ((arraySize (D3D12Texture.getInfo t) ≤ s)%N →
     requestView k t s = Undefined).
Proof.
  intros Hsized. split; [apply requestView_never_throws|]. split; intros Hs.
  - by apply requestView_content.
  - by apply requestView_outside.
Qed.

Lemma view_request_unchecked_witness :
  slots_sized planted_texture
  ∧ requestView RenderTarget planted_texture 1
    = Returns (SomeRenderTarget (Some example_view), planted_texture)
  ∧ requestView RenderTarget planted_texture 0
    = Returns (SomeRenderTarget None, planted_texture)
  ∧ requestView RenderTarget planted_texture 2 = Undefined.
Proof.
  assert (Hsized : slots_sized planted_texture) by (repeat split; reflexivity).
  split; [exact Hsized|].
  pose proof (view_request_unchecked RenderTarget planted_texture 1 Hsized)
    as (_ & Hin1 & _).
  pose proof (view_request_unchecked RenderTarget planted_texture 0 Hsized)
    as (_ & Hin0 & _).
  pose proof (view_request_unchecked RenderTarget planted_texture 2 Hsized)
    as (_ & _ & Hout).
  split; [|split].
  - destruct Hin1 as (v & Hv & Hreq); [cbn; lia|].
    injection Hv as <-. exact Hreq.
  - destruct Hin0 as (v & Hv & Hreq); [cbn; lia|].
    injection Hv as <-. exact Hreq.
  - apply Hout. cbn; lia.
Defined.

(** C1 as stated fails: on a texture of one slice, the request for slice 1
    does not fail with an error. *)
Lemma view_request_out_of_range_no_error :
  arraySize (D3D12Texture.getInfo mono_texture) = 1%N
  ∧ D3D12Texture.getShaderInputView_slice mono_texture 1 = Undefined
  ∧ ¬ fails (D3D12Texture.getShaderInputView_slice mono_texture 1).
Proof.
  split; [reflexivity|]. split; [reflexivity|].
  intros [e He]. discriminate He.
Qed.

(** C2, as the code has it: for every texture, [isArray()] returns false,
    whatever the creation parameter [arraySize]. *)
Theorem isArray_always_false (t : D3D12Texture.t) :
  D3D12Texture.isArray t = false.
Proof. reflexivity. Qed.

(** C2 as stated fails: a texture of two slices is not reported as an
    array. *)
Lemma isArray_stereo_false :
  (1 < arraySize (D3D12Texture.getInfo stereo_texture))%N
  ∧ D3D12Texture.isArray stereo_texture = false.
Proof. split; [cbn; lia | reflexivity]. Qed.

(** C3, as the code has it: for every texture and every pair (view kind,
    slice) with [slice < arraySize], a request returns exactly what the
    slot of that pair holds and leaves the texture as it was, so a
    repeated request returns the identical result; no request creates a
    view (the number of views held stays the same), so on a texture that
    holds none the result is the empty handle. *)
Theorem views_memoized_never_created (k : ViewKind) (t : D3D12Texture.t) (s : N) :
  slots_sized t → (s < arraySize (D3D12Texture.getInfo t))%N →
  ∃ v t1, slot_content k t s = Some v
        ∧ requestView k t s = Returns (v, t1)
        ∧ t1 = t
        ∧ requestView k t1 s = Returns (v, t1)
        ∧ views_created t1 = views_created t
        ∧ (views_created t = 0%nat → is_view v = false).
Proof.
  intros Hsized Hs.
  destruct (requestView_content k t s Hsized Hs) as (v & Hslot & Hv).
  exists v, t. repeat split; try done.
  intros Hz. by eapply requestView_no_view.
Qed.

Lemma views_memoized_never_created_witness :
  (∃ t1, requestView RenderTarget planted_texture 1
         = Returns (SomeRenderTarget (Some example_view), t1)
         ∧ requestView RenderTarget t1 1
           = Returns (SomeRenderTarget (Some example_view), t1)
         ∧ views_created t1 = 1%nat)
  ∧ (∃ t1, requestView RenderTarget stereo_texture 1
           = Returns (SomeRenderTarget None, t1)
           ∧ requestView RenderTarget t1 1 = Returns (SomeRenderTarget None, t1)
           ∧ views_created t1 = 0%nat).
Proof.
  split.
  - destruct (views_memoized_never_created RenderTarget planted_texture 1)
      as (v & t1 & Hslot & Hfirst & _ & Hsecond & Hcount & _);
      [repeat split; reflexivity | cbn; lia |].
    injection Hslot as <-. exists t1.
    split; [exact Hfirst|]. split; [exact Hsecond | exact Hcount].
  - destruct (views_memoized_never_created RenderTarget stereo_texture 1)
      as (v & t1 & Hslot & Hfirst & _ & Hsecond & Hcount & _);
      [repeat split; reflexivity | cbn; lia |].
    injection Hslot as <-. exists t1.
    split; [exact Hfirst|]. split; [exact Hsecond | exact Hcount].
Defined.

(** C3 as stated fails: on the stereo texture the requests for the
    render-target views of slices 0 and 1 both hand back the empty handle,
    and the texture holds no view afterwards. *)
Lemma stereo_render_targets_not_created :
  D3D12Texture.getRenderTargetView_slice stereo_texture 0
    = Returns (None, stereo_texture)
  ∧ D3D12Texture.getRenderTargetView_slice stereo_texture 1
    = Returns (None, stereo_texture)
  ∧ views_created stereo_texture = 0%nat
  ∧ ¬ (∃ v0 t1 v1 t2,
         requestView RenderTarget stereo_texture 0 = Returns (v0, t1)
         ∧ requestView RenderTarget t1 1 = Returns (v1, t2)
         ∧ is_view v0 = true ∧ is_view v1 = true).
Proof.
  split; [reflexivity|]. split; [reflexivity|]. split; [reflexivity|].
  intros (v0 & t1 & v1 & t2 & H0 & _ & Hv0 & _).
  cbn in H0. injection H0 as <- _. discriminate Hv0.
Qed.

(** ** Wrapping a native texture *)

Lemma renamed_renamed (debugName : option string) (r : ID3D12Resource) :
  renamed debugName (renamed debugName r) = renamed debugName r.
Proof. by destruct debugName. Qed.

Lemma res_desc_renamed (debugName : option string) (r : ID3D12Resource) :
  res_desc (renamed debugName r) = res_desc r.
Proof. by destruct debugName. Qed.

(** Building the texture object on a live resource. *)
Lemma make_shared_D3D12Texture_live (device : shared_ptr IDevice.t)
    (info : XrSwapchainCreateInfo) (desc : D3D12_RESOURCE_DESC)
    (texture : ptr) (w : World) (r : ID3D12Resource) :
  resources w !! texture = Some r →
  make_shared_D3D12Texture device info desc texture w
  = Returns (Some (D3D12Texture.new device info desc texture),
             {| resources := resources w;
                calls := calls w
                         ++ (if decide (texture = nullptr) then []
                             else [AddRef texture; AddRef texture;
                                   Release texture]) |}).
Proof.
  intros Hr.
  unfold make_shared_D3D12Texture, ComPtr_InternalAddRef,
    ComPtr_InternalRelease, mbind, M_bind.
  destruct (decide (texture = nullptr)) as [Hnull|Hnull]; cbn.
  - rewrite app_nil_r. destruct w; reflexivity.
  - unfold IUnknown_AddRef, IUnknown_Release. cbn.
    repeat (rewrite Hr; cbn).
    unfold mret, M_ret. rewrite <- !app_assoc. reflexivity.
Qed.

(** The result of a wrap with a device of this backend and a live
    resource, in full. *)
Lemma WrapD3D12Texture_live (d : IDevice.t) (info : XrSwapchainCreateInfo)
    (texture : ptr) (debugName : option string) (w : World)
    (r : ID3D12Resource) :
  IDevice.getApi d = D3D12 → resources w !! texture = Some r →
  WrapD3D12Texture (Some d) info texture debugName w
  = Returns (Some (D3D12Texture.new (Some d) info (res_desc r) texture),
             {| resources := <[texture := renamed debugName r]> (resources w);
                calls := calls w ++ wrap_calls texture debugName |}).
Proof.
  intros Hapi Hr. unfold WrapD3D12Texture, mbind, M_bind, lift. cbn.
  rewrite Hapi. destruct (decide (D3D12 ≠ D3D12)) as [Hne|_]; [done|].
  unfold mret, M_ret, ID3D12Object_SetName, ID3D12Resource_GetDesc.
  destruct debugName as [name|]; rewrite Hr; cbn.
  - rewrite lookup_insert_eq. cbn.
    erewrite make_shared_D3D12Texture_live; [|cbn; apply lookup_insert_eq].
    cbn. unfold wrap_calls. by rewrite <- !app_assoc.
  - erewrite make_shared_D3D12Texture_live; [|exact Hr].
    cbn. unfold wrap_calls. cbn. by rewrite insert_id, <- !app_assoc.
Qed.

Lemma WrapD3D12Texture_mismatch (d : IDevice.t) (info : XrSwapchainCreateInfo)
    (texture : ptr) (debugName : option string) (w : World) :
  IDevice.getApi d ≠ D3D12 →
  WrapD3D12Texture (Some d) info texture debugName w
  = Throws (runtime_error "Not a D3D12 device").
Proof.
  intros Hapi. unfold WrapD3D12Texture, mbind, M_bind, lift. cbn.
  by destruct (decide _).
Qed.

Lemma WrapD3D12Texture_dangling (d : IDevice.t) (info : XrSwapchainCreateInfo)
    (texture : ptr) (debugName : option string) (w : World) :
  IDevice.getApi d = D3D12 → resources w !! texture = None →
  WrapD3D12Texture (Some d) info texture debugName w = Undefined.
Proof.
  intros Hapi Hr. unfold WrapD3D12Texture, mbind, M_bind, lift. cbn.
  rewrite Hapi. destruct (decide (D3D12 ≠ D3D12)) as [Hne|_]; [done|].
  unfold mret, M_ret, ID3D12Object_SetName, ID3D12Resource_GetDesc.
  by destruct debugName; rewrite Hr.
Qed.

(** A wrap that returns was made with a device of this backend on a live
    resource. *)
Lemma WrapD3D12Texture_returns_inv (d : IDevice.t)
    (info : XrSwapchainCreateInfo) (texture : ptr)
    (debugName : option string) (w : World) t w' :
  WrapD3D12Texture (Some d) info texture debugName w = Returns (t, w') →
  IDevice.getApi d = D3D12 ∧ ∃ r, resources w !! texture = Some r.
Proof.
  intros Hw. destruct (decide (IDevice.getApi d = D3D12)) as [Hapi|Hapi].
  - split; [done|]. destruct (resources w !! texture) as [r|] eqn:Hr.
    + by exists r.
    + by rewrite (WrapD3D12Texture_dangling _ _ _ _ _ Hapi Hr) in Hw.
  - by rewrite (WrapD3D12Texture_mismatch _ _ _ _ _ Hapi) in Hw.
Qed.

(** C4: wrapping a native texture with a device whose [getApi()] is not
    this backend's fails with the device-mismatch error, nothing having
    been done to the native resource; with a device of this backend and a
    live resource it succeeds, gives the resource the debug name when one
    is supplied (and leaves the name alone otherwise), touches the name
    and description of no other resource, and the texture's descriptor is
    the one the resource reports, whatever the swapchain info says; the
    texture keeps the swapchain info, the native pointer and the device
    it was wrapped with. *)
Theorem WrapD3D12Texture_spec (d : IDevice.t) (info : XrSwapchainCreateInfo)
    (texture : ptr) (debugName : option string) (w : World) :
  (IDevice.getApi d ≠ D3D12 →
   WrapD3D12Texture (Some d) info texture debugName w
     = Throws DeviceMismatchError)
  ∧ (IDevice.getApi d = D3D12 →
     ∀ r, resources w !! texture = Some r →
     ∃ t w',
       WrapD3D12Texture (Some d) info texture debugName w
         = Returns (Some t, w')
       ∧ t = D3D12Texture.new (Some d) info (res_desc r) texture
       ∧ D3D12Texture.m_textureDesc t = res_desc r
       ∧ D3D12Texture.getInfo t = info
       ∧ D3D12Texture.getNativePtr t = texture
       ∧ D3D12Texture.getDevice t = Some d
       ∧ resources w' !! texture
         = Some {| res_desc := res_desc r;
                   res_name :=
                     match debugName with
                     | Some name => Some (c_str (wstring_of_range name))
                     | None => res_name r
                     end |}
       ∧ ∀ other, other ≠ texture → resources w' !! other = resources w !! other).
Proof.
  split.
  - apply WrapD3D12Texture_mismatch.
  - intros Hapi r Hr. eexists _, _.
    split; [by apply WrapD3D12Texture_live|].
    do 5 (split; [reflexivity|]). cbn. split.
    + rewrite lookup_insert_eq. by destruct debugName, r.
    + intros other Hother. by rewrite lookup_insert_ne.
Qed.

Lemma WrapD3D12Texture_spec_witness :
  WrapD3D12Texture (Some example_d3d11_device) stereo_info 20480
    (Some "eye") example_world = Throws DeviceMismatchError
  ∧ ∃ t w',
      WrapD3D12Texture (D3D12Device.shared_from_this example_device)
        mono_info 20480 (Some "eye") example_world
      = Returns (Some t, w')
      ∧ D3D12Texture.m_textureDesc t = stereo_desc
      ∧ D3D12Texture.getInfo t = mono_info
      ∧ resources w' !! 20480
        = Some {| res_desc := stereo_desc; res_name := Some [101; 121; 101]%N |}.
Proof.
  split.
  - apply (WrapD3D12Texture_spec example_d3d11_device). discriminate.
  - destruct (WrapD3D12Texture_spec
                {| IDevice.getApi := D3D12Device.getApi example_device;
                   IDevice.getDeviceName := D3D12Device.getDeviceName example_device;
                   IDevice.getTextureFormat :=
                     D3D12Device.getTextureFormat example_device;
                   IDevice.isTextureFormatSRGB :=
                     D3D12Device.isTextureFormatSRGB example_device;
                   IDevice.getNativePtr := D3D12Device.getNativePtr example_device;
                   IDevice.getContextPtr := D3D12Device.getContextPtr example_device |}
                mono_info 20480 (Some "eye"%string) example_world)
      as [_ Hok].
    destruct (Hok eq_refl {| res_desc := stereo_desc; res_name := None |} eq_refl)
      as (t & w' & Hw & _ & Hdesc & Hinfo & _ & _ & Hname & _).
    exists t, w'.
    split; [exact Hw|]. split; [exact Hdesc|]. split; [exact Hinfo | exact Hname].
Defined.

(** ** The format mapper *)

(** C5: [getTextureFormat] returns a native code for the two formats of
    the supported subset, and fails with the unsupported-format error for
    every other abstract format; the error is not caught on the way: a
    computation that goes on with the native code ends with it. *)
Theorem getTextureFormat_spec (d : D3D12Device.t) :
  D3D12Device.getTextureFormat d R32G32B32A32_FLOAT
    = Returns DXGI_FORMAT_R32G32B32A32_FLOAT
  ∧ D3D12Device.getTextureFormat d R16G16B16A16_UNORM
    = Returns DXGI_FORMAT_R16G16B16A16_UNORM
  ∧ (∀ v, D3D12Device.getTextureFormat d (OtherFormat v)
          = Throws UnsupportedFormatError)
  ∧ (∀ v (B : Type) (k : Z → M B) (w : World),
       (lift (D3D12Device.getTextureFormat d (OtherFormat v)) ≫= k) w
       = Throws UnsupportedFormatError).
Proof. repeat split. Qed.

Lemma cast_DXGI_FORMAT_in_range (code : Z) :
  -2 ^ 31 ≤ code < 2 ^ 32 →
  (code < 2 ^ 31 ∧ cast_DXGI_FORMAT code = code)
  ∨ (2 ^ 31 ≤ code ∧ cast_DXGI_FORMAT code = code - 2 ^ 32).
Proof.
  intros Hrange. unfold cast_DXGI_FORMAT, to_signed.
  destruct (decide (code < 2 ^ 31)) as [Hlt|Hge].
  - left. split; [done|]. rewrite Z.mod_small; lia.
  - right. split; [lia|]. replace (code + 2 ^ (32 - 1)) with ((code - 2 ^ 31) + 1 * 2 ^ 32) by lia.
    rewrite Z.mod_add by lia. rewrite Z.mod_small; lia.
Qed.

Lemma isTextureFormatSRGB_cast (d : D3D12Device.t) (code : Z) :
  D3D12Device.isTextureFormatSRGB d code = true
  ↔ cast_DXGI_FORMAT code = DXGI_FORMAT_R8G8B8A8_UNORM_SRGB
    ∨ cast_DXGI_FORMAT code = DXGI_FORMAT_B8G8R8A8_UNORM_SRGB
    ∨ cast_DXGI_FORMAT code = DXGI_FORMAT_B8G8R8X8_UNORM_SRGB.
Proof.
  unfold D3D12Device.isTextureFormatSRGB. cbv zeta.
  repeat case_match; split; intros; try done; lia.
Qed.

Lemma cast_DXGI_FORMAT_mod (code : Z) :
  cast_DXGI_FORMAT code = cast_DXGI_FORMAT (code mod 2 ^ 32).
Proof.
  unfold cast_DXGI_FORMAT, to_signed.
  by rewrite (Z.add_mod_idemp_l (code) (2 ^ (32 - 1)) (2 ^ 32)) by lia.
Qed.

Lemma isTextureFormatSRGB_low_bits (d : D3D12Device.t) (code : Z) :
  D3D12Device.isTextureFormatSRGB d code = true
  ↔ code mod 2 ^ 32 = DXGI_FORMAT_R8G8B8A8_UNORM_SRGB
    ∨ code mod 2 ^ 32 = DXGI_FORMAT_B8G8R8A8_UNORM_SRGB
    ∨ code mod 2 ^ 32 = DXGI_FORMAT_B8G8R8X8_UNORM_SRGB.
Proof.
  rewrite isTextureFormatSRGB_cast, cast_DXGI_FORMAT_mod.
  unfold DXGI_FORMAT_R8G8B8A8_UNORM_SRGB, DXGI_FORMAT_B8G8R8A8_UNORM_SRGB,
    DXGI_FORMAT_B8G8R8X8_UNORM_SRGB.
  pose proof (Z.mod_pos_bound code (2 ^ 32)) as Hb.
  destruct (cast_DXGI_FORMAT_in_range (code mod 2 ^ 32)) as [[? ->] | [? ->]];
    lia.
Qed.

(** C6, as the code has it: [isTextureFormatSRGB] is total and looks at
    the low 32 bits of its 64-bit operand only (the cast to the
    enumeration): it returns true exactly when these are one of the three
    sRGB codes of the switch, so on every code that fits the enumeration
    exactly for the codes 29, 91 and 93, and false for every other such
    code; a wider operand whose low half is one of the three is classified
    as sRGB too. The answers of both functions depend on their argument
    only, so they are the same at every call and on every device, and each
    supported abstract format maps to a code classified as not sRGB. *)
Theorem isTextureFormatSRGB_spec (d d' : D3D12Device.t) (code : Z)
    (f : TextureFormat) :
  (D3D12Device.isTextureFormatSRGB d code = true
   ↔ code mod 2 ^ 32 = DXGI_FORMAT_R8G8B8A8_UNORM_SRGB
     ∨ code mod 2 ^ 32 = DXGI_FORMAT_B8G8R8A8_UNORM_SRGB
     ∨ code mod 2 ^ 32 = DXGI_FORMAT_B8G8R8X8_UNORM_SRGB)
  ∧ (-2 ^ 31 ≤ code < 2 ^ 32 →
     (D3D12Device.isTextureFormatSRGB d code = true
      ↔ code = DXGI_FORMAT_R8G8B8A8_UNORM_SRGB
        ∨ code = DXGI_FORMAT_B8G8R8A8_UNORM_SRGB
        ∨ code = DXGI_FORMAT_B8G8R8X8_UNORM_SRGB))
  ∧ D3D12Device.isTextureFormatSRGB d' code
    = D3D12Device.isTextureFormatSRGB d code
  ∧ D3D12Device.getTextureFormat d' f = D3D12Device.getTextureFormat d f
  ∧ (∀ c, D3D12Device.getTextureFormat d f = Returns c →
          D3D12Device.isTextureFormatSRGB d' c = false).
Proof.
  split; [apply isTextureFormatSRGB_low_bits|]. split.
  - intros Hrange. rewrite isTextureFormatSRGB_cast.
    unfold DXGI_FORMAT_R8G8B8A8_UNORM_SRGB, DXGI_FORMAT_B8G8R8A8_UNORM_SRGB,
      DXGI_FORMAT_B8G8R8X8_UNORM_SRGB.
    destruct (cast_DXGI_FORMAT_in_range code Hrange) as [[? ->] | [? ->]]; lia.
  - split; [reflexivity|]. split; [reflexivity|].
    intros c Hc. destruct f; cbn in Hc; [by injection Hc as <-..|discriminate].
Qed.

Lemma isTextureFormatSRGB_spec_witness :
  (D3D12Device.isTextureFormatSRGB example_device 29 = true
   ↔ 29 = DXGI_FORMAT_R8G8B8A8_UNORM_SRGB
     ∨ 29 = DXGI_FORMAT_B8G8R8A8_UNORM_SRGB
     ∨ 29 = DXGI_FORMAT_B8G8R8X8_UNORM_SRGB)
  ∧ D3D12Device.isTextureFormatSRGB example_device 11 = false.
Proof.
  destruct (isTextureFormatSRGB_spec example_device example_device 29
              R16G16B16A16_UNORM) as (_ & Hcode & _ & _ & Hfmt).
  split.
  - apply Hcode. lia.
  - apply Hfmt. reflexivity.
Defined.

(** C6 as stated fails: the code 4294967325 is none of the three sRGB
    codes, and it is classified as sRGB: its low 32 bits are those of
    29. *)
Lemma isTextureFormatSRGB_wide_code :
  D3D12Device.isTextureFormatSRGB example_device 4294967325 = true
  ∧ 4294967325 ≠ DXGI_FORMAT_R8G8B8A8_UNORM_SRGB
  ∧ 4294967325 ≠ DXGI_FORMAT_B8G8R8A8_UNORM_SRGB
  ∧ 4294967325 ≠ DXGI_FORMAT_B8G8R8X8_UNORM_SRGB.
Proof. repeat split; discriminate. Qed.

(** ** The device's shader state *)

(** No call on a device changes the device or the native world. *)
Lemma device_call_inert (c : DeviceCall) (d : D3D12Device.t) (w : World) :
  device_call c d w = Returns (d, w).
Proof. by destruct c. Qed.

Lemma device_calls_inert (cs : list DeviceCall) (d : D3D12Device.t) (w : World) :
  device_calls cs d w = Returns (d, w).
Proof.
  induction cs as [|c cs IH]; [done|].
  cbn. unfold mbind, M_bind. by rewrite device_call_inert.
Qed.

(** C7, as the code has it: [dispatchShader] never fails. After every
    history of calls on a device, with or without a shader bound, the
    device and the native world are as before and [dispatchShader]
    returns, leaving them so. *)
Theorem dispatchShader_always_returns (cs : list DeviceCall)
    (d : D3D12Device.t) (doNotClear : bool) (w : World) :
  device_calls cs d w = Returns (d, w)
  ∧ D3D12Device.dispatchShader d doNotClear w = Returns (tt, w)
  ∧ ¬ fails (D3D12Device.dispatchShader d doNotClear w).
Proof.
  split; [apply device_calls_inert|]. split; [done|].
  intros [e He]. discriminate He.
Qed.

(** C7 as stated fails: on a device with no call made yet, so with no
    shader bound, [dispatchShader] returns. *)
Lemma dispatchShader_unbound_returns :
  unbound []
  ∧ device_calls [] example_device example_world
    = Returns (example_device, example_world)
  ∧ D3D12Device.dispatchShader example_device false example_world
    = Returns (tt, example_world)
  ∧ ¬ fails (D3D12Device.dispatchShader example_device false example_world).
Proof.
  split; [constructor|]. split; [reflexivity|]. split; [reflexivity|].
  intros [e He]. discriminate He.
Qed.

(** ** The compute shader's thread groups *)

(** C8, as the code has it: [updateThreadGroups] changes the stored
    extents only: [getThreadGroups] then returns the new triple, and the
    program, the device and the API of the shader are as before. Binding
    the shader and dispatching makes no native call and leaves the device
    and the world unchanged, whatever the extents. *)
Theorem updateThreadGroups_spec (cs : D3D12ComputeShader.t)
    (threadGroups : N * N * N) (d : D3D12Device.t) (doNotClear : bool)
    (w : World) :
  let cs' := D3D12ComputeShader.updateThreadGroups cs threadGroups in
  D3D12ComputeShader.getThreadGroups cs' = threadGroups
  ∧ D3D12ComputeShader.getNativePtr cs' = D3D12ComputeShader.getNativePtr cs
  ∧ D3D12ComputeShader.getDevice cs' = D3D12ComputeShader.getDevice cs
  ∧ D3D12ComputeShader.getApi cs' = D3D12ComputeShader.getApi cs
  ∧ bind_and_dispatch d cs' doNotClear w = Returns (d, w).
Proof. repeat split. Qed.

(** C8 as stated fails: after the extents are set to 8 by 8 by 1, binding
    the shader and dispatching records no dispatch of these extents: no
    native call is made at all. *)
Lemma dispatch_ignores_thread_groups :
  let cs' :=
    D3D12ComputeShader.updateThreadGroups example_compute_shader (8, 8, 1)%N in
  bind_and_dispatch example_device cs' false example_world
    = Returns (example_device, example_world)
  ∧ ¬ (∃ d' w',
         bind_and_dispatch example_device cs' false example_world
           = Returns (d', w')
         ∧ CmdDispatch 8 8 1 ∈ calls w').
Proof.
  split; [reflexivity|].
  intros (d' & w' & Hrun & Hin). injection Hrun as <- <-.
  cbn in Hin. by apply not_elem_of_nil in Hin.
Qed.

(** ** The GPU timer *)

Lemma timer_calls_inert (cs : list TimerCall) (t : D3D12GpuTimer.t) :
  timer_calls cs t = t.
Proof.
  unfold timer_calls. revert t.
  induction cs as [|c cs IH]; intros t; [done|].
  cbn. rewrite IH. by destruct c.
Qed.

(** C9: for every timer and every history of calls on it, [query] with
    [reset] set, made after a [start()] with no [stop()] since, returns
    the not-ready value 0; the history, with the intervals it measured,
    has no bearing on the result. *)
Theorem query_after_start_not_ready (cs : list TimerCall) (t : D3D12GpuTimer.t) :
  D3D12GpuTimer.query (D3D12GpuTimer.start (timer_calls cs t)) true = 0%N
  ∧ timer_calls (cs ++ [CallStart]) t = t.
Proof. split; [done|]. apply timer_calls_inert. Qed.

(** ** The views' native pointer *)

(** C10: for every view of the three classes, whatever descriptor handle
    it wraps, [getNativePtr()] returns the null pointer. *)
Theorem view_getNativePtr_null (srv : D3D12ShaderResourceView.t)
    (uav : D3D12UnorderedAccessView.t) (rtv : D3D12RenderTargetView.t) :
  D3D12ShaderResourceView.getNativePtr srv = nullptr
  ∧ D3D12UnorderedAccessView.getNativePtr uav = nullptr
  ∧ D3D12RenderTargetView.getNativePtr rtv = nullptr.
Proof. repeat split. Qed.

(** * Further properties *)

(** ** Histories of view requests *)

Section TextureHistories.

Import D3D12Texture.

Lemma getShaderInputView_whole (t : D3D12Texture.t) :
  getShaderInputView t = Returns (m_shaderResourceView t, t).
Proof. destruct t as [? ? ? ? [?|] ? ? ? ? ?]; reflexivity. Qed.

Lemma getComputeShaderOutputView_whole (t : D3D12Texture.t) :
  getComputeShaderOutputView t = Returns (m_unorderedAccessView t, t).
Proof. destruct t as [? ? ? ? ? ? [?|] ? ? ?]; reflexivity. Qed.

Lemma getRenderTargetView_whole (t : D3D12Texture.t) :
  getRenderTargetView t = Returns (m_renderTargetView t, t).
Proof. destruct t as [? ? ? ? ? ? ? ? [?|] ?]; reflexivity. Qed.

Lemma requestView_cases (k : ViewKind) (t : D3D12Texture.t) (s : N) :
  requestView k t s = Undefined ∨ ∃ v, requestView k t s = Returns (v, t).
Proof.
  destruct k; cbn.
  - destruct (m_shaderResourceSubView t !! N.to_nat s) as [slot|] eqn:Hs.
    + right. rewrite (getShaderInputView_slice_inside _ _ _ Hs). by eexists.
    + left. by rewrite (getShaderInputView_slice_outside _ _ Hs).
  - destruct (m_unorderedAccessSubView t !! N.to_nat s) as [slot|] eqn:Hs.
    + right. rewrite (getComputeShaderOutputView_slice_inside _ _ _ Hs).
      by eexists.
    + left. by rewrite (getComputeShaderOutputView_slice_outside _ _ Hs).
  - destruct (m_renderTargetSubView t !! N.to_nat s) as [slot|] eqn:Hs.
    + right. rewrite (getRenderTargetView_slice_inside _ _ _ Hs). by eexists.
    + left. by rewrite (getRenderTargetView_slice_outside _ _ Hs).
Qed.

Lemma texture_call_cases (c : TextureCall) (t : D3D12Texture.t) :
  texture_call c t = Undefined ∨ ∃ v, texture_call c t = Returns (v, t).
Proof.
  destruct c; cbn [texture_call]; try apply requestView_cases; right.
  - rewrite getShaderInputView_whole. by eexists.
  - rewrite getComputeShaderOutputView_whole. by eexists.
  - rewrite getRenderTargetView_whole. by eexists.
Qed.

(** On a texture that holds no view, a request in range hands back the
    empty handle of its kind. *)
Lemma requestView_empty (k : ViewKind) (t : D3D12Texture.t) (s : N) :
  slots_sized t → views_created t = 0%nat → (s < arraySize (m_info t))%N →
  requestView k t s = Returns (no_view k, t).
Proof.
  intros (Hi & Ho & Hr) Hz Hs. unfold views_created in Hz.
  assert (Hlt : (N.to_nat s < N.to_nat (arraySize (m_info t)))%nat) by lia.
  destruct k; cbn.
  - rewrite <- Hi in Hlt. apply lookup_lt_is_Some in Hlt as [slot Hslot].
    rewrite (getShaderInputView_slice_inside _ _ _ Hslot).
    apply sum_held_zero in Hslot as ->; [done | lia].
  - rewrite <- Ho in Hlt. apply lookup_lt_is_Some in Hlt as [slot Hslot].
    rewrite (getComputeShaderOutputView_slice_inside _ _ _ Hslot).
    apply sum_held_zero in Hslot as ->; [done | lia].
  - rewrite <- Hr in Hlt. apply lookup_lt_is_Some in Hlt as [slot Hslot].
    rewrite (getRenderTargetView_slice_inside _ _ _ Hslot).
    apply sum_held_zero in Hslot as ->; [done | lia].
Qed.

Lemma held_zero {T : Type} (p : shared_ptr T) : held p = 0%nat → p = None.
Proof. by destruct p. Qed.

Lemma texture_call_empty (c : TextureCall) (t : D3D12Texture.t) :
  slots_sized t → views_created t = 0%nat →
  call_in_range (arraySize (m_info t)) c →
  texture_call c t = Returns (no_view (call_kind c), t).
Proof.
  intros Hsized Hz Hc.
  destruct c; cbn [texture_call call_kind];
    try (by apply requestView_empty); unfold views_created in Hz.
  - rewrite getShaderInputView_whole.
    rewrite (held_zero (m_shaderResourceView t)); [done | lia].
  - rewrite getComputeShaderOutputView_whole.
    rewrite (held_zero (m_unorderedAccessView t)); [done | lia].
  - rewrite getRenderTargetView_whole.
    rewrite (held_zero (m_renderTargetView t)); [done | lia].
Qed.

Lemma texture_call_outside (c : TextureCall) (t : D3D12Texture.t) :
  slots_sized t → ¬ call_in_range (arraySize (m_info t)) c →
  texture_call c t = Undefined.
Proof.
  intros Hsized Hc.
  destruct c; cbn in Hc; try (by destruct Hc);
    cbn [texture_call]; apply requestView_outside; try done; lia.
Qed.

End TextureHistories.

(** X1: a history of view requests, of the six getters in any order and
    for any slices, never leaves by an exception; either it runs into an
    access past the end of a cache, or it returns one view per request and
    the texture exactly as it was. *)
Theorem texture_calls_frame (cs : list TextureCall) (t : D3D12Texture.t) :
  texture_calls cs t = Undefined
  ∨ ∃ vs, texture_calls cs t = Returns (vs, t) ∧ length vs = length cs.
Proof.
  induction cs as [|c cs IH]; cbn.
  - right. by exists [].
  - destruct (texture_call_cases c t) as [-> | [v ->]]; [by left|]. cbn.
    destruct IH as [-> | (vs & -> & Hlen)]; [by left|].
    right. exists (v :: vs). cbn. by rewrite Hlen.
Qed.

(** X2: on a texture whose caches are sized by [arraySize] and hold no
    view (every constructed texture), a history of requests that are all
    in range returns, hands back the empty handle of the requested kind
    for every request, and leaves the texture unchanged. *)
Theorem texture_calls_all_empty (cs : list TextureCall) (t : D3D12Texture.t) :
  slots_sized t → views_created t = 0%nat →
  Forall (call_in_range (arraySize (D3D12Texture.getInfo t))) cs →
  texture_calls cs t = Returns (no_view ∘ call_kind <$> cs, t).
Proof.
  intros Hsized Hz Hcs. induction Hcs as [|c cs Hc _ IH]; [done|].
  cbn. rewrite (texture_call_empty c t Hsized Hz Hc). cbn. by rewrite IH.
Qed.

Lemma texture_calls_all_empty_witness :
  texture_calls
    [CallGetRenderTargetViewSlice 0; CallGetShaderInputView;
     CallGetRenderTargetViewSlice 1] stereo_texture
  = Returns ([SomeRenderTarget None; SomeShaderInput None;
              SomeRenderTarget None], stereo_texture).
Proof.
  apply (texture_calls_all_empty
           [CallGetRenderTargetViewSlice 0; CallGetShaderInputView;
            CallGetRenderTargetViewSlice 1] stereo_texture).
  - repeat split; reflexivity.
  - reflexivity.
  - repeat constructor; cbn; lia.
Defined.

(** X3: the first request for a slice at or past [arraySize] makes the
    whole history undefined, whatever was requested in range before it
    and whatever follows. *)
Theorem texture_calls_out_of_range (cs1 cs2 : list TextureCall)
    (c : TextureCall) (t : D3D12Texture.t) :
  slots_sized t →
  ¬ call_in_range (arraySize (D3D12Texture.getInfo t)) c →
  texture_calls (cs1 ++ c :: cs2) t = Undefined.
Proof.
  intros Hsized Hc. induction cs1 as [|c1 cs1 IH]; cbn.
  - by rewrite (texture_call_outside c t Hsized Hc).
  - destruct (texture_call_cases c1 t) as [-> | [v ->]]; [done|].
    cbn. by rewrite IH.
Qed.

Lemma texture_calls_out_of_range_witness :
  texture_calls
    ([CallGetRenderTargetViewSlice 1]
       ++ CallGetShaderInputViewSlice 2 :: [CallGetRenderTargetView])
    stereo_texture = Undefined.
Proof.
  apply (texture_calls_out_of_range [CallGetRenderTargetViewSlice 1]
           [CallGetRenderTargetView] (CallGetShaderInputViewSlice 2)
           stereo_texture).
  - repeat split; reflexivity.
  - cbn. lia.
Defined.

(** X4: a texture constructed for zero slices has no slice to ask for:
    every request that names a slice is an access past the end, slice 0
    included, while the three getters without a slice return the empty
    handle and leave the texture unchanged. *)
Theorem new_zero_slices (device : shared_ptr IDevice.t)
    (info : XrSwapchainCreateInfo) (desc : D3D12_RESOURCE_DESC)
    (texture : ptr) (k : ViewKind) (s : N) :
  arraySize info = 0%N →
  let t := D3D12Texture.new device info desc texture in
  requestView k t s = Undefined
  ∧ D3D12Texture.getShaderInputView t = Returns (None, t)
  ∧ D3D12Texture.getComputeShaderOutputView t = Returns (None, t)
  ∧ D3D12Texture.getRenderTargetView t = Returns (None, t).
Proof.
  intros Hzero t. split; [|by repeat split].
  apply requestView_outside; [apply new_slots_sized|].
  cbn. rewrite Hzero. lia.
Qed.

Lemma new_zero_slices_witness :
  let info :=
    {| createFlags := 0; usageFlags := 1; format := 11; sampleCount := 1;
       width := 16; height := 16; faceCount := 1; arraySize := 0;
       mipCount := 1 |} in
  requestView ShaderInput (D3D12Texture.new None info mono_desc 4096) 0
    = Undefined.
Proof.
  intros info.
  apply (new_zero_slices None info mono_desc 4096 ShaderInput 0 eq_refl).
Defined.

(** ** More on wrapping a native texture *)

(** X5: the slices of a wrapped texture are those of the swapchain info,
    not those of the native resource: after a successful wrap, a request
    for a slice below [arraySize] of the info hands back the empty handle
    and leaves the texture unchanged, and a request at or past it is an
    access past the end, whatever [DepthOrArraySize] the resource
    reports. *)
Theorem wrapped_texture_slices (d : IDevice.t) (info : XrSwapchainCreateInfo)
    (texture : ptr) (debugName : option string) (w : World)
    (r : ID3D12Resource) (k : ViewKind) (s : N) :
  IDevice.getApi d = D3D12 → resources w !! texture = Some r →
  ∃ t w',
    WrapD3D12Texture (Some d) info texture debugName w = Returns (Some t, w')
    ∧ D3D12Texture.getInfo t = info
    ∧ D3D12Texture.getNativePtr t = texture
    ∧ ((s < arraySize info)%N → requestView k t s = Returns (no_view k, t))
    ∧ ((arraySize info ≤ s)%N → requestView k t s = Undefined).
Proof.
  intros Hapi Hr. eexists _, _.
  split; [by apply WrapD3D12Texture_live|].
  split; [done|]. split; [done|]. split; intros Hs.
  - apply requestView_empty;
      [apply new_slots_sized | apply new_views_created | done].
  - apply requestView_outside; [apply new_slots_sized | done].
Qed.

Lemma wrapped_texture_slices_witness :
  ∃ t w',
    WrapD3D12Texture (Some {| IDevice.getApi := D3D12;
                              IDevice.getDeviceName := "Adapter";
                              IDevice.getTextureFormat := λ _, Returns 0;
                              IDevice.isTextureFormatSRGB := λ _, false;
                              IDevice.getNativePtr := 4096;
                              IDevice.getContextPtr := 0 |})
      mono_info 20480 None example_world = Returns (Some t, w')
    ∧ requestView RenderTarget t 0 = Returns (SomeRenderTarget None, t)
    ∧ requestView RenderTarget t 1 = Undefined.
Proof.
  set (d := {| IDevice.getApi := D3D12;
               IDevice.getDeviceName := "Adapter"%string;
               IDevice.getTextureFormat := λ _, Returns 0;
               IDevice.isTextureFormatSRGB := λ _, false;
               IDevice.getNativePtr := 4096;
               IDevice.getContextPtr := 0 |}).
  destruct (wrapped_texture_slices d mono_info 20480 None example_world
              {| res_desc := stereo_desc; res_name := None |}
              RenderTarget 0 eq_refl eq_refl)
    as (t & w' & Hw & _ & _ & Hin & _).
  destruct (wrapped_texture_slices d mono_info 20480 None example_world
              {| res_desc := stereo_desc; res_name := None |}
              RenderTarget 1 eq_refl eq_refl)
    as (t1 & w1 & Hw1 & _ & _ & _ & Hout).
  rewrite Hw in Hw1. injection Hw1 as <- <-.
  exists t, w'. split; [exact Hw|]. split.
  - apply Hin. cbn. lia.
  - apply Hout. cbn. lia.
Defined.

Lemma references_app (obj : ptr) (cs1 cs2 : list NativeCall) :
  references obj (cs1 ++ cs2) = references obj cs1 + references obj cs2.
Proof.
  induction cs1 as [|c cs1 IH]; [done|].
  destruct c; cbn; rewrite IH; lia.
Qed.

Lemma references_wrap_calls (texture : ptr) (debugName : option string) :
  texture ≠ nullptr → references texture (wrap_calls texture debugName) = 1.
Proof.
  intros Hnull. unfold wrap_calls.
  destruct (decide (texture = nullptr)); [done|].
  destruct debugName; cbn; destruct (decide (texture = texture)); done.
Qed.

(** X6: the native calls of a successful wrap of a non-null resource are
    all made on the resource, in this order: [SetName] when a debug name
    is given, [GetDesc], then [AddRef], [AddRef] and [Release] as the
    pointer passes through the constructor's parameter into the texture.
    They are appended to the calls made before; the resource ends with
    one more reference than it had, and no dispatch is among them. *)
Theorem WrapD3D12Texture_native_calls (d : IDevice.t)
    (info : XrSwapchainCreateInfo) (texture : ptr)
    (debugName : option string) (w : World) (r : ID3D12Resource) :
  IDevice.getApi d = D3D12 → resources w !! texture = Some r →
  texture ≠ nullptr →
  ∃ t w',
    WrapD3D12Texture (Some d) info texture debugName w = Returns (t, w')
    ∧ calls w'
      = calls w
        ++ match debugName with
           | Some name => [SetName texture (c_str (wstring_of_range name))]
           | None => []
           end
        ++ [GetDesc texture; AddRef texture; AddRef texture; Release texture]
    ∧ references texture (calls w') = references texture (calls w) + 1
    ∧ ∀ x y z, CmdDispatch x y z ∈ calls w' → CmdDispatch x y z ∈ calls w.
Proof.
  intros Hapi Hr Hnull. eexists _, _.
  split; [by apply WrapD3D12Texture_live|]. cbn. split; [|split].
  - unfold wrap_calls. destruct (decide (texture = nullptr)); [done|].
    by destruct debugName.
  - by rewrite references_app, references_wrap_calls.
  - intros x y z [Hin|Hin]%elem_of_app; [done|].
    unfold wrap_calls in Hin.
    destruct (decide (texture = nullptr)); [done|].
    destruct debugName; cbn in Hin;
      repeat (apply elem_of_cons in Hin as [Hin|Hin]; [discriminate|]);
      by apply not_elem_of_nil in Hin.
Qed.

Lemma WrapD3D12Texture_native_calls_witness :
  ∃ t w',
    WrapD3D12Texture (D3D12Device.shared_from_this example_device)
      stereo_info 20480 (Some "eye") example_world = Returns (t, w')
    ∧ calls w' = [SetName 20480 [101; 121; 101]%N; GetDesc 20480;
                  AddRef 20480; AddRef 20480; Release 20480]
    ∧ references 20480 (calls w') = 1.
Proof.
  destruct (WrapD3D12Texture_native_calls
              {| IDevice.getApi := D3D12Device.getApi example_device;
                 IDevice.getDeviceName := D3D12Device.getDeviceName example_device;
                 IDevice.getTextureFormat :=
                   D3D12Device.getTextureFormat example_device;
                 IDevice.isTextureFormatSRGB :=
                   D3D12Device.isTextureFormatSRGB example_device;
                 IDevice.getNativePtr := D3D12Device.getNativePtr example_device;
                 IDevice.getContextPtr := D3D12Device.getContextPtr example_device |}
              stereo_info 20480 (Some "eye"%string) example_world
              {| res_desc := stereo_desc; res_name := None |} eq_refl eq_refl)
    as (t & w' & Hw & Hcalls & Hrefs & _); [discriminate|].
  exists t, w'. split; [exact Hw|]. split; [exact Hcalls | exact Hrefs].
Defined.

(** X7: the wrap has no defined outcome with an empty device pointer, nor,
    with a device of this backend, with a pointer to no live resource,
    with or without a debug name; in neither case is an error raised. *)
Theorem WrapD3D12Texture_undefined (d : IDevice.t)
    (info : XrSwapchainCreateInfo) (texture : ptr)
    (debugName : option string) (w : World) :
  WrapD3D12Texture None info texture debugName w = Undefined
  ∧ (IDevice.getApi d = D3D12 → resources w !! texture = None →
     WrapD3D12Texture (Some d) info texture debugName w = Undefined).
Proof. split; [done|]. apply WrapD3D12Texture_dangling. Qed.

Lemma WrapD3D12Texture_undefined_witness :
  WrapD3D12Texture (D3D12Device.shared_from_this example_device)
    stereo_info 4 (Some "eye") example_world = Undefined.
Proof.
  apply (WrapD3D12Texture_undefined
           {| IDevice.getApi := D3D12Device.getApi example_device;
              IDevice.getDeviceName := D3D12Device.getDeviceName example_device;
              IDevice.getTextureFormat :=
                D3D12Device.getTextureFormat example_device;
              IDevice.isTextureFormatSRGB :=
                D3D12Device.isTextureFormatSRGB example_device;
              IDevice.getNativePtr := D3D12Device.getNativePtr example_device;
              IDevice.getContextPtr := D3D12Device.getContextPtr example_device |}
           stereo_info 4 (Some "eye"%string) example_world);
    reflexivity.
Defined.

(** ** The debug name *)

Lemma widen_zero (c : ascii) : widen c = 0%N ↔ c = Ascii.zero.
Proof.
  unfold widen. split.
  - intros Hw. destruct (N_of_ascii c <? 128)%N; [|lia].
    rewrite <- (ascii_N_embedding c), Hw. reflexivity.
  - intros ->. reflexivity.
Qed.

Lemma c_str_terminated (w1 w2 : wstring) :
  0%N ∉ w1 → c_str (w1 ++ 0%N :: w2) = w1.
Proof.
  induction w1 as [|c w1 IH]; intros Hnz; [done|]. cbn.
  apply not_elem_of_cons in Hnz as [Hc Hw1].
  destruct (N.eqb_spec c 0) as [->|_]; [done|]. by rewrite IH.
Qed.

Lemma wstring_of_range_app (s1 s2 : string) :
  wstring_of_range (s1 ++ s2) = wstring_of_range s1 ++ wstring_of_range s2.
Proof.
  unfold wstring_of_range. induction s1 as [|c s1 IH]; [done|].
  change (list_ascii_of_string (String c s1 +:+ s2))
    with (c :: list_ascii_of_string (s1 +:+ s2)).
  cbn. f_equal. exact IH.
Qed.

Lemma wstring_of_range_no_terminator (s : string) :
  Ascii.zero ∉ list_ascii_of_string s → 0%N ∉ wstring_of_range s.
Proof.
  unfold wstring_of_range. intros Hs [c [Hc Hin]]%list_elem_of_fmap.
  symmetry in Hc. apply widen_zero in Hc as ->. done.
Qed.

(** X8: a debug name of plain characters (codes 1 to 127) reaches the
    resource verbatim: after the wrap the resource is named by the codes
    of the characters, one unit per character, and its description is
    untouched. *)
Theorem WrapD3D12Texture_plain_name (d : IDevice.t)
    (info : XrSwapchainCreateInfo) (texture : ptr) (name : string)
    (w : World) (r : ID3D12Resource) :
  IDevice.getApi d = D3D12 → resources w !! texture = Some r →
  Forall (λ c, (0 < N_of_ascii c < 128)%N) (list_ascii_of_string name) →
  ∃ t w',
    WrapD3D12Texture (Some d) info texture (Some name) w = Returns (t, w')
    ∧ resources w' !! texture
      = Some {| res_desc := res_desc r;
                res_name := Some (N_of_ascii <$> list_ascii_of_string name) |}.
Proof.
  intros Hapi Hr Hplain. eexists _, _.
  split; [by apply WrapD3D12Texture_live|]. cbn.
  rewrite lookup_insert_eq. do 3 f_equal.
  unfold wstring_of_range.
  induction Hplain as [|c cs [Hpos Hlt] _ IH]; [done|]. cbn.
  unfold widen at 1 2. destruct (N.ltb_spec (N_of_ascii c) 128); [|lia].
  destruct (N.eqb_spec (N_of_ascii c) 0); [lia|]. by rewrite IH.
Qed.

Lemma WrapD3D12Texture_plain_name_witness :
  ∃ t w',
    WrapD3D12Texture (Some {| IDevice.getApi := D3D12;
                              IDevice.getDeviceName := "Adapter";
                              IDevice.getTextureFormat := λ _, Returns 0;
                              IDevice.isTextureFormatSRGB := λ _, false;
                              IDevice.getNativePtr := 4096;
                              IDevice.getContextPtr := 0 |})
      stereo_info 20480 (Some "eye") example_world = Returns (t, w')
    ∧ resources w' !! 20480
      = Some {| res_desc := stereo_desc;
                res_name := Some [101; 121; 101]%N |}.
Proof.
  apply (WrapD3D12Texture_plain_name
           {| IDevice.getApi := D3D12;
              IDevice.getDeviceName := "Adapter"%string;
              IDevice.getTextureFormat := λ _, Returns 0;
              IDevice.isTextureFormatSRGB := λ _, false;
              IDevice.getNativePtr := 4096;
              IDevice.getContextPtr := 0 |}
           stereo_info 20480 "eye"%string example_world
           {| res_desc := stereo_desc; res_name := None |});
    [reflexivity | reflexivity |].
  repeat constructor; cbn; lia.
Defined.

(** X9: a debug name is cut at its first NUL character: for a name made
    of a NUL-free text, a NUL and anything after, the resource is given
    the name of the text alone. *)
Theorem WrapD3D12Texture_name_cut (d : IDevice.t)
    (info : XrSwapchainCreateInfo) (texture : ptr) (s1 s2 : string)
    (w : World) (r : ID3D12Resource) :
  IDevice.getApi d = D3D12 → resources w !! texture = Some r →
  Ascii.zero ∉ list_ascii_of_string s1 →
  ∃ t w',
    WrapD3D12Texture (Some d) info texture
      (Some (s1 ++ String Ascii.zero s2)%string) w = Returns (t, w')
    ∧ resources w' !! texture
      = Some {| res_desc := res_desc r;
                res_name := Some (wstring_of_range s1) |}.
Proof.
  intros Hapi Hr Hs1. eexists _, _.
  split; [by apply WrapD3D12Texture_live|]. cbn.
  rewrite lookup_insert_eq. do 3 f_equal.
  rewrite wstring_of_range_app. cbn.
  apply c_str_terminated. by apply wstring_of_range_no_terminator.
Qed.

Lemma WrapD3D12Texture_name_cut_witness :
  ∃ t w',
    WrapD3D12Texture (Some {| IDevice.getApi := D3D12;
                              IDevice.getDeviceName := "Adapter";
                              IDevice.getTextureFormat := λ _, Returns 0;
                              IDevice.isTextureFormatSRGB := λ _, false;
                              IDevice.getNativePtr := 4096;
                              IDevice.getContextPtr := 0 |})
      stereo_info 20480
      (Some ("eye" ++ String Ascii.zero "left")%string) example_world
    = Returns (t, w')
    ∧ resources w' !! 20480
      = Some {| res_desc := stereo_desc;
                res_name := Some [101; 121; 101]%N |}.
Proof.
  apply (WrapD3D12Texture_name_cut
           {| IDevice.getApi := D3D12;
              IDevice.getDeviceName := "Adapter"%string;
              IDevice.getTextureFormat := λ _, Returns 0;
              IDevice.isTextureFormatSRGB := λ _, false;
              IDevice.getNativePtr := 4096;
              IDevice.getContextPtr := 0 |}
           stereo_info 20480 "eye"%string "left"%string example_world
           {| res_desc := stereo_desc; res_name := None |});
    [reflexivity | reflexivity |].
  cbn. intros Hin.
  repeat (apply elem_of_cons in Hin as [Hin|Hin]; [discriminate|]).
  by apply not_elem_of_nil in Hin.
Defined.

(** X10: wrapping is repeatable: after a wrap that returned, the same
    wrap returns again, with a texture whose members are the same as
    those of the first, and leaves the name and the description of every
    native resource as the first wrap left them; it takes one more
    reference on the resource. *)
Theorem WrapD3D12Texture_again (d : IDevice.t) (info : XrSwapchainCreateInfo)
    (texture : ptr) (debugName : option string) (w w1 : World)
    (t : shared_ptr D3D12Texture.t) :
  WrapD3D12Texture (Some d) info texture debugName w = Returns (t, w1) →
  texture ≠ nullptr →
  ∃ w2,
    WrapD3D12Texture (Some d) info texture debugName w1 = Returns (t, w2)
    ∧ resources w2 = resources w1
    ∧ references texture (calls w1) = references texture (calls w) + 1
    ∧ references texture (calls w2) = references texture (calls w) + 2.
Proof.
  intros Hw Hnull.
  destruct (WrapD3D12Texture_returns_inv _ _ _ _ _ _ _ Hw) as [Hapi [r Hr]].
  rewrite (WrapD3D12Texture_live _ _ _ _ _ _ Hapi Hr) in Hw.
  injection Hw as <- <-. eexists. split; [|split; [|split]].
  - rewrite (WrapD3D12Texture_live d info texture debugName _
               (renamed debugName r) Hapi); [|apply lookup_insert_eq].
    by rewrite res_desc_renamed.
  - cbn. by rewrite insert_insert_eq, renamed_renamed.
  - cbn. by rewrite references_app, references_wrap_calls.
  - cbn. rewrite !references_app, !references_wrap_calls by done. lia.
Qed.

Lemma WrapD3D12Texture_again_witness :
  ∃ w2,
    WrapD3D12Texture (D3D12Device.shared_from_this example_device)
      stereo_info 20480 (Some "eye")
      {| resources :=
           <[20480 := {| res_desc := stereo_desc;
                         res_name := Some [101; 121; 101]%N |}]>
             (resources example_world);
         calls := [SetName 20480 [101; 121; 101]%N; GetDesc 20480;
                   AddRef 20480; AddRef 20480; Release 20480] |}
    = Returns (Some stereo_texture, w2)
    ∧ references 20480 (calls w2) = 2.
Proof.
  destruct (WrapD3D12Texture_again
              {| IDevice.getApi := D3D12Device.getApi example_device;
                 IDevice.getDeviceName := D3D12Device.getDeviceName example_device;
                 IDevice.getTextureFormat :=
                   D3D12Device.getTextureFormat example_device;
                 IDevice.isTextureFormatSRGB :=
                   D3D12Device.isTextureFormatSRGB example_device;
                 IDevice.getNativePtr := D3D12Device.getNativePtr example_device;
                 IDevice.getContextPtr := D3D12Device.getContextPtr example_device |}
              stereo_info 20480 (Some "eye"%string) example_world
              {| resources :=
                   <[20480 := {| res_desc := stereo_desc;
                                 res_name := Some [101; 121; 101]%N |}]>
                     (resources example_world);
                 calls := [SetName 20480 [101; 121; 101]%N; GetDesc 20480;
                           AddRef 20480; AddRef 20480; Release 20480] |}
              (Some stereo_texture) eq_refl) as (w2 & Hw2 & _ & _ & Hrefs);
    [discriminate|].
  exists w2. split; [exact Hw2 | exact Hrefs].
Defined.

(** ** Devices of this backend and what they hand out *)

Lemma shared_from_this_api (dev : D3D12Device.t) :
  ∃ d, D3D12Device.shared_from_this dev = Some d ∧ IDevice.getApi d = D3D12.
Proof. by eexists. Qed.

(** X11: a device of this backend is never turned away: wrapping with the
    handle of a [D3D12Device] never raises an error, and the device
    handle carried by a timer the device created wraps every live
    resource, the texture referring back to the same device. Creating the
    timer changes neither the device nor the native world. *)
Theorem own_device_accepted (dev : D3D12Device.t)
    (info : XrSwapchainCreateInfo) (texture : ptr)
    (debugName : option string) (w : World) :
  ¬ fails (WrapD3D12Texture (D3D12Device.shared_from_this dev) info texture
             debugName w)
  ∧ ∃ timer,
      D3D12Device.createTimer dev w = Returns ((Some timer, dev), w)
      ∧ ∀ r, resources w !! texture = Some r →
          ∃ t w',
            WrapD3D12Texture (D3D12GpuTimer.getDevice timer) info texture
              debugName w = Returns (Some t, w')
            ∧ D3D12Texture.getDevice t = D3D12Device.shared_from_this dev.
Proof.
  destruct (shared_from_this_api dev) as (d & Hd & Hapi). split.
  - intros [e He]. rewrite Hd in He.
    destruct (resources w !! texture) as [r|] eqn:Hr.
    + by rewrite (WrapD3D12Texture_live _ _ _ _ _ _ Hapi Hr) in He.
    + by rewrite (WrapD3D12Texture_dangling _ _ _ _ _ Hapi Hr) in He.
  - eexists. split; [reflexivity|]. intros r Hr. cbn. rewrite Hd.
    eexists _, _. split; [by apply WrapD3D12Texture_live|]. done.
Qed.

Lemma own_device_accepted_witness :
  ∃ timer,
    D3D12Device.createTimer example_device example_world
    = Returns ((Some timer, example_device), example_world)
    ∧ ∃ t w',
        WrapD3D12Texture (D3D12GpuTimer.getDevice timer) stereo_info 20480
          None example_world = Returns (Some t, w')
        ∧ D3D12Texture.getDevice t
          = D3D12Device.shared_from_this example_device.
Proof.
  destruct (own_device_accepted example_device stereo_info 20480 None
              example_world) as [_ (timer & Hcreate & Hwrap)].
  exists timer. split; [exact Hcreate|].
  apply (Hwrap {| res_desc := stereo_desc; res_name := None |}).
  reflexivity.
Defined.

(** X12: the format mapper is one-to-one where it is defined: two
    abstract formats mapped to the same native code are the same format;
    and a code it returns is unchanged by the cast of
    [isTextureFormatSRGB]. *)
Theorem getTextureFormat_injective (d : D3D12Device.t) (f g : TextureFormat)
    (c : Z) :
  D3D12Device.getTextureFormat d f = Returns c →
  D3D12Device.getTextureFormat d g = Returns c →
  f = g ∧ cast_DXGI_FORMAT c = c.
Proof.
  intros Hf Hg.
  destruct f; cbn in Hf; try discriminate; injection Hf as <-;
    destruct g; cbn in Hg; try discriminate; done.
Qed.

Lemma getTextureFormat_injective_witness :
  R16G16B16A16_UNORM = R16G16B16A16_UNORM ∧ cast_DXGI_FORMAT 11 = 11.
Proof.
  apply (getTextureFormat_injective example_device R16G16B16A16_UNORM
           R16G16B16A16_UNORM 11); reflexivity.
Defined.

(** ** Thread groups *)

(** X13: of successive updates of the thread groups the last one stands,
    and an update with the extents the shader already holds changes
    nothing. *)
Theorem updateThreadGroups_compose (cs : D3D12ComputeShader.t)
    (a b : N * N * N) :
  D3D12ComputeShader.updateThreadGroups
    (D3D12ComputeShader.updateThreadGroups cs a) b
  = D3D12ComputeShader.updateThreadGroups cs b
  ∧ D3D12ComputeShader.updateThreadGroups cs
      (D3D12ComputeShader.getThreadGroups cs) = cs.
Proof. split; [done | by destruct cs]. Qed.

(** ** Construction of a device *)

Lemma length_string_of_list_ascii (l : list ascii) :
  String.length (string_of_list_ascii l) = length l.
Proof. induction l as [|c l IH]; [done|]. cbn. by rewrite IH. Qed.

Lemma narrow_widen (c : ascii) : narrow (widen c) = c.
Proof.
  unfold narrow, widen.
  pose proof (N_ascii_bounded c) as Hb.
  destruct (N_of_ascii c <? 128)%N.
  - rewrite N.mod_small by done. apply ascii_N_embedding.
  - replace (N_of_ascii c + 65280)%N with (N_of_ascii c + 255 * 256)%N by lia.
    rewrite N.Div0.mod_add, N.mod_small by done. apply ascii_N_embedding.
Qed.

Lemma narrow_widen_list (l : list ascii) : narrow <$> (widen <$> l) = l.
Proof.
  induction l as [|c l IH]; [done|]. cbn. by rewrite narrow_widen, IH.
Qed.

Lemma elem_of_terminated (w1 w2 : wstring) : 0%N ∈ w1 ++ 0%N :: w2.
Proof. apply elem_of_app. right. by left. Qed.

(** The device a construction that goes through makes. *)
Lemma D3D12Device_new_ok (CHECK_HRCMD : Z → result unit) (device queue : ptr)
    (a : AdapterAnswers) :
  device ≠ nullptr →
  CHECK_HRCMD (hr_QueryInterface a) = Returns tt →
  CHECK_HRCMD (hr_GetAdapter a) = Returns tt →
  CHECK_HRCMD (hr_GetDesc a) = Returns tt →
  0%N ∈ Description a →
  D3D12Device_new CHECK_HRCMD device queue a
  = Returns {| D3D12Device.m_device := device;
               D3D12Device.m_queue := queue;
               D3D12Device.m_context := nullptr;
               D3D12Device.m_deviceName :=
                 string_of_list_ascii (narrow <$> c_str (Description a)) |}.
Proof.
  intros Hdev H1 H2 H3 Hterm. unfold D3D12Device_new, wstring_of_array.
  destruct (decide (device = nullptr)); [done|].
  rewrite H1, H2, H3. cbn. by destruct (decide (0%N ∈ Description a)).
Qed.

(** X14: when the three native queries pass their check and the adapter
    description is terminated, wrapping a non-null native device returns
    a device of this backend that hands the native pointer back, whose
    name has one character per unit of the description before its
    terminator, and whose context pointer is null, at construction and
    after every history of calls on the device. *)
Theorem WrapD3D12Device_ok (CHECK_HRCMD : Z → result unit)
    (device queue : ptr) (a : AdapterAnswers) :
  device ≠ nullptr →
  CHECK_HRCMD (hr_QueryInterface a) = Returns tt →
  CHECK_HRCMD (hr_GetAdapter a) = Returns tt →
  CHECK_HRCMD (hr_GetDesc a) = Returns tt →
  0%N ∈ Description a →
  ∃ d,
    WrapD3D12Device CHECK_HRCMD device queue a = Returns (Some d)
    ∧ D3D12Device.getApi d = D3D12
    ∧ D3D12Device.getNativePtr d = device
    ∧ String.length (D3D12Device.getDeviceName d)
      = length (c_str (Description a))
    ∧ ∀ cs w, ∃ d',
        device_calls cs d w = Returns (d', w)
        ∧ D3D12Device.getContextPtr d' = nullptr.
Proof.
  intros Hdev H1 H2 H3 Hterm. eexists. split.
  - unfold WrapD3D12Device.
    by rewrite (D3D12Device_new_ok _ _ _ _ Hdev H1 H2 H3 Hterm).
  - split; [done|]. split; [done|]. split.
    + cbn. by rewrite length_string_of_list_ascii, length_fmap.
    + intros cs w. eexists. split; [apply device_calls_inert | done].
Qed.

Lemma WrapD3D12Device_ok_witness :
  ∃ d,
    WrapD3D12Device example_CHECK_HRCMD 4096 8192 example_answers
    = Returns (Some d)
    ∧ D3D12Device.getNativePtr d = 4096
    ∧ String.length (D3D12Device.getDeviceName d) = 3%nat.
Proof.
  destruct (WrapD3D12Device_ok example_CHECK_HRCMD 4096 8192 example_answers)
    as (d & Hd & _ & Hptr & Hlen & _);
    [discriminate | reflexivity | reflexivity | reflexivity | |].
  - cbn. do 3 right. left.
  - exists d. split; [exact Hd|]. split; [exact Hptr | exact Hlen].
Defined.

(** X15: the two character conversions of the file undo each other: when
    the adapter description is a narrow text without a NUL character,
    widened as the debug names are and terminated, the device is named by
    that text. *)
Theorem device_name_round_trip (CHECK_HRCMD : Z → result unit)
    (device queue : ptr) (a : AdapterAnswers) (s : string) (rest : wstring) :
  device ≠ nullptr →
  CHECK_HRCMD (hr_QueryInterface a) = Returns tt →
  CHECK_HRCMD (hr_GetAdapter a) = Returns tt →
  CHECK_HRCMD (hr_GetDesc a) = Returns tt →
  Ascii.zero ∉ list_ascii_of_string s →
  Description a = wstring_of_range s ++ 0%N :: rest →
  ∃ d,
    D3D12Device_new CHECK_HRCMD device queue a = Returns d
    ∧ D3D12Device.getDeviceName d = s.
Proof.
  intros Hdev H1 H2 H3 Hs Hdesc. eexists. split.
  - apply D3D12Device_new_ok; try done.
    rewrite Hdesc. apply elem_of_terminated.
  - cbn. rewrite Hdesc.
    rewrite c_str_terminated by (by apply wstring_of_range_no_terminator).
    unfold wstring_of_range. rewrite narrow_widen_list.
    apply string_of_list_ascii_of_string.
Qed.

Lemma device_name_round_trip_witness :
  ∃ d,
    D3D12Device_new example_CHECK_HRCMD 4096 8192 example_answers = Returns d
    ∧ D3D12Device.getDeviceName d = "GPU"%string.
Proof.
  apply (device_name_round_trip example_CHECK_HRCMD 4096 8192 example_answers
           "GPU"%string [0; 0]%N);
    [discriminate | reflexivity | reflexivity | reflexivity | | reflexivity].
  cbn. intros Hin.
  repeat (apply elem_of_cons in Hin as [Hin|Hin]; [discriminate|]).
  by apply not_elem_of_nil in Hin.
Defined.

(** X16: the construction stops at the first query whose check throws and
    leaves by that exception: a failure of [QueryInterface] whatever the
    other two statuses are, a failure of [GetAdapter] after
    [QueryInterface] passed, a failure of [GetDesc] after both passed;
    the description is not looked at. *)
Theorem D3D12Device_new_first_failure (CHECK_HRCMD : Z → result unit)
    (device queue : ptr) (a : AdapterAnswers) (e : exn) :
  device ≠ nullptr →
  (CHECK_HRCMD (hr_QueryInterface a) = Throws e
   ∨ (CHECK_HRCMD (hr_QueryInterface a) = Returns tt
      ∧ CHECK_HRCMD (hr_GetAdapter a) = Throws e)
   ∨ (CHECK_HRCMD (hr_QueryInterface a) = Returns tt
      ∧ CHECK_HRCMD (hr_GetAdapter a) = Returns tt
      ∧ CHECK_HRCMD (hr_GetDesc a) = Throws e)) →
  D3D12Device_new CHECK_HRCMD device queue a = Throws e
  ∧ WrapD3D12Device CHECK_HRCMD device queue a = Throws e.
Proof.
  intros Hdev Hfail.
  assert (Hnew : D3D12Device_new CHECK_HRCMD device queue a = Throws e).
  { unfold D3D12Device_new. destruct (decide (device = nullptr)); [done|].
    destruct Hfail as [H1 | [[H1 H2] | (H1 & H2 & H3)]].
    - by rewrite H1.
    - by rewrite H1, H2.
    - by rewrite H1, H2, H3. }
  split; [done|]. unfold WrapD3D12Device. by rewrite Hnew.
Qed.

Lemma D3D12Device_new_first_failure_witness :
  D3D12Device_new example_CHECK_HRCMD 4096 8192
    {| hr_QueryInterface := 0; hr_GetAdapter := -2147467262; hr_GetDesc := 0;
       Description := [] |}
  = Throws (runtime_error "HRESULT failure").
Proof.
  apply (D3D12Device_new_first_failure example_CHECK_HRCMD 4096 8192
           {| hr_QueryInterface := 0; hr_GetAdapter := -2147467262;
              hr_GetDesc := 0; Description := [] |}
           (runtime_error "HRESULT failure")).
  - discriminate.
  - right. left. split; reflexivity.
Defined.

(** ** The full-screen triangle *)


